(** * Fraud detection service: risk scoring and decision combination

    A shallow embedding of [FraudDetectionService] and of the parts of
    [AIFraudAnalysisService], [SandboxVelocity], [Transaction] and the
    environment configuration that it relies on.

    Conventions of the embedding.
    - JavaScript numbers are idealised: rule weights, scores, thresholds and
      millisecond timestamps are integers ([Z]); amounts and the AI
      confidence are exact rationals ([Q]).  [Math.round] is
      [floor (x + 1/2)].
    - The static rule registry [FRAUD_RULES], the [SandboxVelocity]
      collection and the [Transaction] collection are explicit state that is
      passed in and returned.
    - [Date.now()] is an explicit argument [now].
    - Code that can throw returns a [Result]; [try]/[catch] is [try_catch]. *)

From Stdlib Require Import QArith Qround Qminmax.
From stdpp Require Import gmap strings list pretty.

Open Scope Z_scope.

(** ** Data model (types/index.ts, models/Transaction.ts) *)

Inductive Status := pending | success | failed | blocked.

Record Transaction := {
  tx_id : option string;
  amount : Q;
  customerEmail : string;
  merchantId : string;
  ipAddress : option string;
  createdAt : Z;
  status : Status;
  isNewCustomer : option bool;
  currency : option string;
  paymentMethod : option string;
  description : option string
}.

Inductive RiskLevel := low | medium | high | critical.

Inductive Action := allow | block | review | flag.

Record FraudRiskScore := {
  score : Z;
  level : RiskLevel;
  factors : list string;
  recommendations : list string
}.

Record FraudRule := {
  rule_id : string;
  rule_name : string;
  rule_description : string;
  weight : Z;
  enabled : bool;
  condition : Transaction -> bool
}.

(** [Partial<FraudRule>]: a field that is [None] is a key that is absent. *)
Record FraudRuleUpdates := {
  upd_id : option string;
  upd_name : option string;
  upd_description : option string;
  upd_weight : option Z;
  upd_enabled : option bool;
  upd_condition : option (Transaction -> bool)
}.

Record FraudDetectionResult := {
  isFraudulent : bool;
  riskScore : FraudRiskScore;
  flagged : bool;
  reason : option string;
  action : Action
}.

Record AIFraudAnalysis := {
  ai_isFraudulent : bool;
  confidence : Q;
  reasoning : string;
  riskFactors : list string;
  ai_recommendations : list string;
  aiModel : string;
  analysisTime : Z
}.

Record EnhancedFraudDetectionResult := {
  base : FraudDetectionResult;
  aiAnalysis : option AIFraudAnalysis;
  combinedRiskScore : Z;
  aiEnhanced : bool
}.

(** ** Configuration (config/environment.ts) *)

Record EnvironmentConfig := {
  FRAUD_FLAG_THRESHOLD : Z;
  FRAUD_REVIEW_THRESHOLD : Z;
  FRAUD_BLOCK_THRESHOLD : Z;
  VELOCITY_WINDOW_MS : Z;
  VELOCITY_MAX_ATTEMPTS : Z;
  AMOUNT_ANOMALY_WINDOW_MS : Z;
  AMOUNT_ANOMALY_MULTIPLIER : Z;
  GEO_ANOMALY_WINDOW_MS : Z;
  GEO_ANOMALY_MAX_LOCATIONS : Z;
  GROQ_API_KEY : string;
  GROQ_API_URL : string;
  AI_MODEL : string;
  AI_FRAUD_ANALYSIS_ENABLED : bool;
  AI_CONFIDENCE_THRESHOLD : Q
}.

(** The values [ENV] takes when [aiFlag] / [apiKey] are the only variables
    set in the process environment. *)
Definition ENV_with (aiFlag : bool) (apiKey : string) : EnvironmentConfig := {|
  FRAUD_FLAG_THRESHOLD := 30;
  FRAUD_REVIEW_THRESHOLD := 50;
  FRAUD_BLOCK_THRESHOLD := 80;
  VELOCITY_WINDOW_MS := 3600000;
  VELOCITY_MAX_ATTEMPTS := 5;
  AMOUNT_ANOMALY_WINDOW_MS := 86400000;
  AMOUNT_ANOMALY_MULTIPLIER := 3;
  GEO_ANOMALY_WINDOW_MS := 86400000;
  GEO_ANOMALY_MAX_LOCATIONS := 2;
  GROQ_API_KEY := apiKey;
  GROQ_API_URL := "https://api.groq.com/openai/v1/chat/completions";
  AI_MODEL := "meta-llama/llama-4-scout-17b-16e-instruct";
  AI_FRAUD_ANALYSIS_ENABLED := aiFlag;
  AI_CONFIDENCE_THRESHOLD := 7 # 10
|}.

(** ** Small JavaScript helpers *)

(** [new Date(t).getHours()], read in UTC. *)
Definition getHours (t : Z) : Z := (t / 3600000) mod 24.

(** [Math.round]: the nearest integer, halves going up. *)
Definition Math_round (x : Q) : Z := Qfloor (x + (1 # 2)).

(** [a > b] on numbers. *)
Definition Qgtb (a b : Q) : bool := negb (Qle_bool a b).

(** [Boolean(s)] for an optional string: missing and empty are falsy. *)
Definition truthy_string (o : option string) : bool :=
  match o with
  | Some s => negb (String.eqb s "")
  | None => false
  end.

(** [Array.prototype.findIndex]; [None] stands for the result [-1]. *)
Fixpoint findIndex {A : Type} (p : A -> bool) (l : list A) : option nat :=
  match l with
  | [] => None
  | x :: rest => if p x then Some O else S <$> findIndex p rest
  end.

(** ** The rule registry (FraudDetectionService.ts) *)

Definition FRAUD_RULES : list FraudRule := [
  {| rule_id := "high_amount";
     rule_name := "High Transaction Amount";
     rule_description := "Transaction amount is unusually high";
     weight := 20;
     enabled := true;
     condition := fun transaction => Qgtb (amount transaction) (inject_Z 1000000) |};
  {| rule_id := "multiple_failed_attempts";
     rule_name := "Multiple Failed Attempts";
     rule_description := "Multiple failed payment attempts from same source";
     weight := 25;
     enabled := true;
     condition := fun _ => false |};
  {| rule_id := "unusual_time";
     rule_name := "Unusual Transaction Time";
     rule_description := "Transaction at unusual hours";
     weight := 15;
     enabled := true;
     condition := fun transaction =>
       let hour := getHours (createdAt transaction) in
       (hour <? 6) || (23 <? hour) |};
  {| rule_id := "new_customer_high_amount";
     rule_name := "New Customer High Amount";
     rule_description := "New customer with high transaction amount";
     weight := 30;
     enabled := true;
     condition := fun transaction =>
       Qgtb (amount transaction) (inject_Z 500000)
       && match isNewCustomer transaction with Some true => true | _ => false end |};
  {| rule_id := "suspicious_ip";
     rule_name := "Suspicious IP Address";
     rule_description := "Transaction from suspicious IP address";
     weight := 20;
     enabled := true;
     condition := fun _ => false |};
  {| rule_id := "velocity_check";
     rule_name := "High Velocity Transactions";
     rule_description := "Too many transactions in short time";
     weight := 25;
     enabled := true;
     condition := fun _ => false |}
].

(** [{ ...rule, ...updates }] *)
Definition spread_updates (updates : FraudRuleUpdates) (rule : FraudRule) : FraudRule := {|
  rule_id := default (rule_id rule) (upd_id updates);
  rule_name := default (rule_name rule) (upd_name updates);
  rule_description := default (rule_description rule) (upd_description updates);
  weight := default (weight rule) (upd_weight updates);
  enabled := default (enabled rule) (upd_enabled updates);
  condition := default (condition rule) (upd_condition updates)
|}.

Definition no_updates : FraudRuleUpdates := {|
  upd_id := None; upd_name := None; upd_description := None;
  upd_weight := None; upd_enabled := None; upd_condition := None
|}.

(** Each management operation returns its boolean together with the
    registry it leaves behind. *)
Definition updateFraudRule (ruleId : string) (updates : FraudRuleUpdates)
    (rules : list FraudRule) : bool * list FraudRule :=
  match findIndex (fun rule => String.eqb (rule_id rule) ruleId) rules with
  | None => (false, rules)
  | Some ruleIndex => (true, alter (spread_updates updates) ruleIndex rules)
  end.

Definition addFraudRule (now : Z) (given_id : option string) (name desc : string)
    (w : Z) (en : bool) (cond : Transaction -> bool)
    (rules : list FraudRule) : bool * list FraudRule :=
  let newRule := {|
    rule_id := if truthy_string given_id then default "" given_id
               else "rule_" +:+ pretty now;
    rule_name := name;
    rule_description := desc;
    weight := w;
    enabled := en;
    condition := cond |} in
  (true, rules ++ [newRule]).

Definition removeFraudRule (ruleId : string) (rules : list FraudRule)
    : bool * list FraudRule :=
  match findIndex (fun rule => String.eqb (rule_id rule) ruleId) rules with
  | None => (false, rules)
  | Some ruleIndex => (true, delete ruleIndex rules)
  end.

Definition getFraudRules (rules : list FraudRule) : list FraudRule := rules.

Definition toggleFraudRule (ruleId : string) (en : bool) (rules : list FraudRule)
    : bool * list FraudRule :=
  updateFraudRule ruleId
    {| upd_id := None; upd_name := None; upd_description := None;
       upd_weight := None; upd_enabled := Some en; upd_condition := None |}
    rules.

(** ** Anomaly detectors *)

(** A document of the [SandboxVelocity] collection (models/SandboxVelocity.ts).
    The collection is a finite map from the unique [key] to its document. *)
Record SandboxVelocity := {
  key : string;
  count : Z;
  expiresAt : Z
}.

Definition velocity_key (merchant customer : string) : string :=
  "vel:" +:+ merchant +:+ ":" +:+ customer.

(** [checkVelocityFraud]: one observation; it decides and updates the counter.
    The collection is taken to answer every request, so the [catch] branch
    (log and return false) is not entered. *)
Definition checkVelocityFraud (env : EnvironmentConfig)
    (customer merchant : string) (timeWindow now : Z)
    (store : gmap string SandboxVelocity) : bool * gmap string SandboxVelocity :=
  let k := velocity_key merchant customer in
  let fresh := {| key := k; count := 1; expiresAt := now + timeWindow |} in
  match store !! k with
  | None => (false, <[k := fresh]> store)
  | Some existing =>
      if expiresAt existing <=? now then (false, <[k := fresh]> store)
      else
        let existing' := {| key := key existing;
                            count := count existing + 1;
                            expiresAt := expiresAt existing |} in
        (VELOCITY_MAX_ATTEMPTS env <? count existing', <[k := existing']> store)
  end.

Definition is_success (s : Status) : bool :=
  match s with success => true | _ => false end.

Definition Qsum (l : list Q) : Q := fold_left Qplus l 0%Q.

(** The [$match] / [$group] pipeline of [checkAmountAnomaly]: no document for
    an empty match, otherwise one document [(avgAmount, maxAmount)]. *)
Definition aggregate_amount_stats (merchant : string) (cutoffTime : Z)
    (db : list Transaction) : list (Q * Q) :=
  let matched :=
    List.filter (fun t => String.eqb (merchantId t) merchant
                          && is_success (status t)
                          && (cutoffTime <=? createdAt t)) db in
  match List.map amount matched with
  | [] => []
  | a :: rest =>
      [ ((Qsum (a :: rest) / inject_Z (Z.of_nat (length (a :: rest))))%Q,
         fold_left Qmax rest a) ]
  end.

Definition checkAmountAnomaly (env : EnvironmentConfig)
    (merchant : string) (amt : Q) (timeWindow now : Z)
    (db : list Transaction) : bool :=
  let cutoffTime := now - timeWindow in
  match aggregate_amount_stats merchant cutoffTime db with
  | [] => false
  | (avgAmount, maxAmount) :: _ =>
      Qgtb amt (avgAmount * inject_Z (AMOUNT_ANOMALY_MULTIPLIER env))
      || Qgtb amt (maxAmount * (3 # 2))
  end.

(** [new Set(items)]: the distinct items, in order of first insertion. *)
Definition Set_add {A : Type} `{EqDecision A} (s : list A) (x : A) : list A :=
  if bool_decide (x ∈ s) then s else s ++ [x].

Definition new_Set {A : Type} `{EqDecision A} (items : list A) : list A :=
  fold_left Set_add items [].

Definition checkGeographicAnomaly (env : EnvironmentConfig)
    (customer transactionLocation : string) (timeWindow now : Z)
    (db : list Transaction) : bool :=
  let cutoffTime := now - timeWindow in
  let recentTransactions :=
    List.filter (fun t => String.eqb (customerEmail t) customer
                          && (cutoffTime <=? createdAt t)) db in
  if (length recentTransactions =? 0)%nat then false
  else
    let uniqueLocations :=
      new_Set (List.filter truthy_string (List.map ipAddress recentTransactions)) in
    GEO_ANOMALY_MAX_LOCATIONS env <? Z.of_nat (length uniqueLocations).

(** ** Risk scoring *)

(** The loop over [FRAUD_RULES]: running total and fired factor names. *)
Definition apply_rules (rules : list FraudRule) (transaction : Transaction)
    : Z * list string :=
  fold_left
    (fun acc rule =>
       if enabled rule && condition rule transaction
       then (acc.1 + weight rule, acc.2 ++ [rule_name rule])
       else acc)
    rules (0, []).

Definition calculateRiskScore (env : EnvironmentConfig) (rules : list FraudRule)
    (db : list Transaction) (now : Z) (transaction : Transaction)
    (store : gmap string SandboxVelocity)
    : FraudRiskScore * gmap string SandboxVelocity :=
  let '(totalScore, factors) := apply_rules rules transaction in
  let '(velocityCheck, store') :=
    checkVelocityFraud env (customerEmail transaction) (merchantId transaction)
      (VELOCITY_WINDOW_MS env) now store in
  let '(totalScore, factors) :=
    if velocityCheck then (totalScore + 30, factors ++ ["High velocity transactions"])
    else (totalScore, factors) in
  let amountAnomaly :=
    checkAmountAnomaly env (merchantId transaction) (amount transaction)
      (AMOUNT_ANOMALY_WINDOW_MS env) now db in
  let '(totalScore, factors) :=
    if amountAnomaly then (totalScore + 25, factors ++ ["Amount anomaly detected"])
    else (totalScore, factors) in
  let geographicAnomaly :=
    checkGeographicAnomaly env (customerEmail transaction)
      (if truthy_string (ipAddress transaction)
       then default "" (ipAddress transaction) else "unknown")
      (GEO_ANOMALY_WINDOW_MS env) now db in
  let '(totalScore, factors) :=
    if geographicAnomaly then (totalScore + 20, factors ++ ["Geographic anomaly"])
    else (totalScore, factors) in
  let '(lvl, recs) :=
    if 80 <=? totalScore then
      (critical, ["Block transaction immediately"; "Flag customer for review"])
    else if 60 <=? totalScore then
      (high, ["Review transaction manually"; "Request additional verification"])
    else if 40 <=? totalScore then
      (medium, ["Monitor transaction closely"; "Consider additional verification"])
    else
      (low, ["Proceed with normal processing"]) in
  ({| score := Z.min totalScore 100;
      level := lvl;
      factors := factors;
      recommendations := recs |}, store').

Definition analyzeTransaction (env : EnvironmentConfig) (rules : list FraudRule)
    (db : list Transaction) (now : Z) (transaction : Transaction)
    (store : gmap string SandboxVelocity)
    : FraudDetectionResult * gmap string SandboxVelocity :=
  let '(rs, store') := calculateRiskScore env rules db now transaction store in
  let fraudulent := FRAUD_BLOCK_THRESHOLD env <=? score rs in
  let flg := FRAUD_REVIEW_THRESHOLD env <=? score rs in
  let '(act, rsn) :=
    if fraudulent then (block, Some "High risk score detected")
    else if flg then (review, Some "Suspicious activity detected")
    else if FRAUD_FLAG_THRESHOLD env <=? score rs
         then (flag, Some "Moderate risk detected")
    else (allow, None) in
  ({| isFraudulent := fraudulent;
      riskScore := rs;
      flagged := flg;
      reason := rsn;
      action := act |}, store').

(** ** Exceptions *)

Inductive Result (A : Type) : Type :=
| Ok (a : A)
| Throw (msg : string).

Arguments Ok {A} a.
Arguments Throw {A} msg.

Definition try_catch {A : Type} (body : Result A) (handler : string -> Result A)
    : Result A :=
  match body with
  | Ok a => Ok a
  | Throw msg => handler msg
  end.

Definition is_Ok {A : Type} (r : Result A) : bool :=
  match r with Ok _ => true | Throw _ => false end.

(** ** The AI oracle (AIFraudAnalysisService.ts) *)

(** What [axios.post] does for one request: it rejects (network failure,
    timeout, error status) or resolves with a body whose
    [choices[0]?.message?.content] is the given optional text. *)
Inductive OracleReply :=
| RequestError (msg : string)
| Response (content : option string).

(** The remote model and the response parser.  The parser stands for
    [parseAIResponse]; it is left arbitrary and is even allowed to throw. *)
Record Oracle := {
  post : Transaction -> OracleReply;
  parseAIResponse : string -> Transaction -> Result AIFraudAnalysis
}.

(** [AIFraudAnalysisService.analyzeTransaction]: the [try] body throws on
    every failure, and the [catch] turns each of them into a fallback
    analysis that is returned normally. *)
Definition AI_analyzeTransaction (env : EnvironmentConfig) (oracle : Oracle)
    (startTime endTime : Z) (transaction : Transaction) : Result AIFraudAnalysis :=
  try_catch
    (if negb (AI_FRAUD_ANALYSIS_ENABLED env) then Throw "AI fraud analysis is disabled"
     else if negb (truthy_string (Some (GROQ_API_KEY env)))
     then Throw "Groq API key is not configured"
     else
       match post oracle transaction with
       | RequestError msg => Throw msg
       | Response aiResponse =>
           if negb (truthy_string aiResponse) then Throw "No response from AI model"
           else
             match parseAIResponse oracle (default "" aiResponse) transaction with
             | Throw msg => Throw msg
             | Ok analysis =>
                 Ok {| ai_isFraudulent := ai_isFraudulent analysis;
                       confidence := confidence analysis;
                       reasoning := reasoning analysis;
                       riskFactors := riskFactors analysis;
                       ai_recommendations := ai_recommendations analysis;
                       aiModel := AI_MODEL env;
                       analysisTime := endTime - startTime |}
             end
       end)
    (fun _ =>
       Ok {| ai_isFraudulent := false;
             confidence := 0;
             reasoning := "AI analysis failed - using fallback assessment";
             riskFactors := ["AI analysis unavailable"];
             ai_recommendations :=
               ["Manual review recommended due to AI analysis failure"];
             aiModel := AI_MODEL env;
             analysisTime := endTime - startTime |}).

(** ** Decision combination *)

Definition combineRiskScores (traditionalScore : Z)
    (ai : option AIFraudAnalysis) : Z :=
  match ai with
  | None => traditionalScore
  | Some a =>
      let traditionalWeight : Q := 7 # 10 in
      let aiWeight : Q := 3 # 10 in
      let aiScore : Q := (confidence a * inject_Z 100)%Q in
      let combinedScore : Q :=
        (inject_Z traditionalScore * traditionalWeight + aiScore * aiWeight)%Q in
      Z.min 100 (Z.max 0 (Math_round combinedScore))
  end.

Definition determineFinalAction (env : EnvironmentConfig)
    (traditionalResult : FraudDetectionResult) (ai : option AIFraudAnalysis)
    (combinedScore : Z) : Action * string :=
  let ladder :=
    if FRAUD_BLOCK_THRESHOLD env <=? combinedScore
    then (block, "High combined risk score")
    else if FRAUD_REVIEW_THRESHOLD env <=? combinedScore
    then (review, "Elevated risk detected")
    else if FRAUD_FLAG_THRESHOLD env <=? combinedScore
    then (flag, "Moderate risk detected")
    else (allow, "Low risk transaction") in
  match ai with
  | Some a =>
      if ai_isFraudulent a && Qle_bool (AI_CONFIDENCE_THRESHOLD env) (confidence a)
      then
        if FRAUD_BLOCK_THRESHOLD env <=? combinedScore
        then (block, "AI detected high-confidence fraud")
        else if FRAUD_REVIEW_THRESHOLD env <=? combinedScore
        then (review, "AI detected suspicious activity")
        else (flag, "AI detected potential risk")
      else ladder
  | None => ladder
  end.

(** [String.prototype.toLowerCase], on the ASCII letters. *)
Definition lower_ascii (c : Ascii.ascii) : Ascii.ascii :=
  let n := Ascii.nat_of_ascii c in
  if ((65 <=? n) && (n <=? 90))%nat then Ascii.ascii_of_nat (n + 32) else c.

Fixpoint toLowerCase (s : string) : string :=
  match s with
  | EmptyString => EmptyString
  | String c rest => String (lower_ascii c) (toLowerCase rest)
  end.

(** [String.prototype.includes] *)
Fixpoint includes (s sub : string) : bool :=
  String.prefix sub s
  || match s with
     | EmptyString => false
     | String _ rest => includes rest sub
     end.

(** [combineRiskFactors] and [combineRecommendations] have the same body. *)
Definition combine_with_ai (traditional aiItems : list string) : list string :=
  let combined :=
    fold_left
      (fun combined item =>
         if existsb (fun t => includes (toLowerCase t) (toLowerCase item)) combined
         then combined
         else combined ++ ["AI: " +:+ item])
      aiItems traditional in
  new_Set combined.

Definition combineRiskFactors := combine_with_ai.
Definition combineRecommendations := combine_with_ai.

(** [analyzeTransactionWithAI].  The velocity store survives a throw, so the
    result pairs the outcome with the store. *)
Definition analyzeTransactionWithAI (env : EnvironmentConfig) (oracle : Oracle)
    (rules : list FraudRule) (db : list Transaction)
    (now startTime endTime : Z) (transaction : Transaction)
    (store : gmap string SandboxVelocity)
    : Result EnhancedFraudDetectionResult * gmap string SandboxVelocity :=
  let '(traditionalResult, store1) :=
    analyzeTransaction env rules db now transaction store in
  let ai : option AIFraudAnalysis :=
    if AI_FRAUD_ANALYSIS_ENABLED env then
      match AI_analyzeTransaction env oracle startTime endTime transaction with
      | Ok a => Some a
      | Throw _ => None
      end
    else None in
  let combined :=
    combineRiskScores (score (riskScore traditionalResult)) ai in
  let finalAction := determineFinalAction env traditionalResult ai combined in
  let body : Result EnhancedFraudDetectionResult :=
    Ok {| base :=
            {| isFraudulent := isFraudulent traditionalResult;
               riskScore :=
                 {| score := combined;
                    level := level (riskScore traditionalResult);
                    factors :=
                      combineRiskFactors (factors (riskScore traditionalResult))
                        (from_option riskFactors [] ai);
                    recommendations :=
                      combineRecommendations
                        (recommendations (riskScore traditionalResult))
                        (from_option ai_recommendations [] ai) |};
               flagged := flagged traditionalResult;
               reason :=
                 if truthy_string (Some finalAction.2) then Some finalAction.2
                 else reason traditionalResult;
               action := finalAction.1 |};
          aiAnalysis := ai;
          combinedRiskScore := combined;
          aiEnhanced := bool_decide (is_Some ai) |} in
  match body with
  | Ok r => (Ok r, store1)
  | Throw _ =>
      let '(traditionalResult', store2) :=
        analyzeTransaction env rules db now transaction store1 in
      (Ok {| base := traditionalResult';
             aiAnalysis := None;
             combinedRiskScore := score (riskScore traditionalResult');
             aiEnhanced := false |}, store2)
  end.

(** * Properties *)

(** Case analysis on the integer comparisons of the goal. *)
Ltac case_leb :=
  match goal with
  | |- context [Z.leb ?a ?b] => destruct (Z.leb_spec a b)
  | |- context [Z.ltb ?a ?b] => destruct (Z.ltb_spec a b)
  end.

(** ** Rule management *)

Lemma findIndex_None {A : Type} (p : A -> bool) (l : list A) :
  Forall (fun x => p x = false) l -> findIndex p l = None.
Proof.
  induction 1 as [|x l Hx _ IH]; simpl; [reflexivity|].
  rewrite Hx, IH. reflexivity.
Qed.

Lemma findIndex_Some_lookup {A : Type} (p : A -> bool) (l : list A) (i : nat) :
  findIndex p l = Some i -> exists x, l !! i = Some x /\ p x = true.
Proof.
  revert i. induction l as [|x l IH]; intros i; simpl; [discriminate|].
  destruct (p x) eqn:Hp.
  - intros [= <-]. exists x. split; [reflexivity|exact Hp].
  - destruct (findIndex p l) as [j|]; simpl; [|discriminate].
    intros [= <-]. destruct (IH j eq_refl) as (y & Hy & Hpy).
    exists y. split; assumption.
Qed.

Lemma unknown_id_not_found (rules : list FraudRule) (ruleId : string) :
  ruleId ∉ rule_id <$> rules ->
  findIndex (fun rule => String.eqb (rule_id rule) ruleId) rules = None.
Proof.
  intros Hnot. apply findIndex_None, Forall_forall. intros r Hr.
  apply String.eqb_neq. intros Heq. apply Hnot.
  rewrite <- Heq. apply list_elem_of_fmap. exists r. split; [reflexivity|exact Hr].
Qed.

(** C10. For a rule id that no rule of the registry carries, [updateFraudRule],
    [removeFraudRule] and [toggleFraudRule] each return [false] (as a value:
    nothing is thrown) and hand back the very same registry: same rules, same
    order, same fields. *)
Theorem unknown_rule_operations_leave_registry
    (rules : list FraudRule) (ruleId : string)
    (updates : FraudRuleUpdates) (en : bool) :
  ruleId ∉ rule_id <$> rules ->
  updateFraudRule ruleId updates rules = (false, rules)
  /\ removeFraudRule ruleId rules = (false, rules)
  /\ toggleFraudRule ruleId en rules = (false, rules).
Proof.
  intros Hnot. unfold toggleFraudRule, updateFraudRule, removeFraudRule.
  rewrite (unknown_id_not_found _ _ Hnot). repeat split.
Qed.

Lemma unknown_rule_operations_leave_registry_witness :
  updateFraudRule "non-existent" no_updates FRAUD_RULES = (false, FRAUD_RULES)
  /\ removeFraudRule "non-existent" FRAUD_RULES = (false, FRAUD_RULES)
  /\ toggleFraudRule "non-existent" false FRAUD_RULES = (false, FRAUD_RULES).
Proof.
  apply (unknown_rule_operations_leave_registry FRAUD_RULES "non-existent").
  intros H%list_elem_of_In. simpl in H. intuition discriminate.
Defined.

(** ** Combining the traditional score with the AI opinion *)

(** [clamp(x, lo, hi)] on rationals, as the specification writes it. *)
Definition clampQ (x lo hi : Q) : Q := Qmax lo (Qmin hi x).

(** The combination formula in the order the specification gives it:
    clamp first, then round. *)
Definition combined_formula (T : Z) (c : Q) : Z :=
  Math_round
    (clampQ (inject_Z T * (7 # 10) + (c * inject_Z 100) * (3 # 10))
            (inject_Z 0) (inject_Z 100)).

Lemma Math_round_Z (z : Z) : Math_round (inject_Z z) = z.
Proof.
  unfold Math_round.
  assert (Hlo : z <= Qfloor (inject_Z z + (1 # 2))).
  { rewrite <- (Qfloor_Z z) at 1. apply Qfloor_resp_le.
    rewrite <- (Qplus_0_r (inject_Z z)) at 1.
    apply Qplus_le_r. discriminate. }
  assert (Hhi : Qfloor (inject_Z z + (1 # 2)) < z + 1).
  { apply Z.lt_nge. intros Hge.
    assert (Hq : (inject_Z (z + 1) <= inject_Z z + (1 # 2))%Q).
    { eapply Qle_trans; [|apply Qfloor_le].
      rewrite <- Zle_Qle. exact Hge. }
    rewrite inject_Z_plus in Hq. apply Qplus_le_r in Hq.
    revert Hq. unfold Qle; simpl. lia. }
  lia.
Qed.

Lemma Math_round_mono (x y : Q) : (x <= y)%Q -> Math_round x <= Math_round y.
Proof.
  intros H. unfold Math_round. apply Qfloor_resp_le.
  apply Qplus_le_l. exact H.
Qed.

Lemma Math_round_comp (x y : Q) : (x == y)%Q -> Math_round x = Math_round y.
Proof.
  intros H. unfold Math_round. apply Qfloor_comp. rewrite H. reflexivity.
Qed.

(** Rounding and clamping to integer bounds commute. *)
Lemma round_clamp_commute (x : Q) :
  Z.min 100 (Z.max 0 (Math_round x))
  = Math_round (clampQ x (inject_Z 0) (inject_Z 100)).
Proof.
  unfold clampQ.
  destruct (Qlt_le_dec (inject_Z 100) x) as [Hbig|Hle100].
  - assert (H100 : 100 <= Math_round x).
    { rewrite <- (Math_round_Z 100). apply Math_round_mono, Qlt_le_weak, Hbig. }
    assert (E : (Qmax (inject_Z 0) (Qmin (inject_Z 100) x) == inject_Z 100)%Q).
    { rewrite (Q.min_l _ _ (Qlt_le_weak _ _ Hbig)). apply Q.max_r. discriminate. }
    rewrite (Math_round_comp _ _ E), Math_round_Z. lia.
  - destruct (Qlt_le_dec x (inject_Z 0)) as [Hneg|Hge0].
    + assert (H0 : Math_round x <= 0).
      { rewrite <- (Math_round_Z 0). apply Math_round_mono, Qlt_le_weak, Hneg. }
      assert (E : (Qmax (inject_Z 0) (Qmin (inject_Z 100) x) == inject_Z 0)%Q).
      { rewrite (Q.min_r _ _ Hle100). apply Q.max_l, Qlt_le_weak, Hneg. }
      rewrite (Math_round_comp _ _ E), Math_round_Z. lia.
    + assert (H0 : 0 <= Math_round x).
      { rewrite <- (Math_round_Z 0). apply Math_round_mono, Hge0. }
      assert (H100 : Math_round x <= 100).
      { rewrite <- (Math_round_Z 100). apply Math_round_mono, Hle100. }
      assert (E : (Qmax (inject_Z 0) (Qmin (inject_Z 100) x) == x)%Q).
      { rewrite (Q.min_r _ _ Hle100). apply Q.max_r, Hge0. }
      rewrite (Math_round_comp _ _ E). lia.
Qed.


(** An AI opinion with the given verdict and confidence. *)
Definition opinion (fraud : bool) (c : Q) : AIFraudAnalysis := {|
  ai_isFraudulent := fraud;
  confidence := c;
  reasoning := "model reasoning";
  riskFactors := [];
  ai_recommendations := [];
  aiModel := "meta-llama/llama-4-scout-17b-16e-instruct";
  analysisTime := 0
|}.


(** The specification's own worked example of the override scenario. *)
Example combineRiskScores_20_09 :
  combineRiskScores 20 (Some (opinion true (9 # 10))) = 41.
Proof. reflexivity. Qed.

(** C9, as stated: at T = 60 and c = 0.5 the combined score is not 53. *)
Lemma combined_60_half_is_not_53 :
  combineRiskScores 60 (Some (opinion false (1 # 2))) <> 53
  /\ combined_formula 60 (1 # 2) <> 53.
Proof. split; vm_compute; discriminate. Qed.

(** C9, amended. With an AI opinion of confidence 0.5 and a traditional
    score of 60, the combined score round(clamp(0.7*60 + 30*0.5, 0, 100)) is
    57 (42 + 15). *)
Theorem combined_60_half_is_57 (a : AIFraudAnalysis) :
  (confidence a == 1 # 2)%Q ->
  combineRiskScores 60 (Some a) = 57
  /\ combined_formula 60 (confidence a) = 57.
Proof.
  intros Hc.
  assert (H : combined_formula 60 (confidence a) = 57).
  { unfold combined_formula, clampQ.
    transitivity (Math_round
      (Qmax (inject_Z 0)
         (Qmin (inject_Z 100)
            (inject_Z 60 * (7 # 10) + ((1 # 2) * inject_Z 100) * (3 # 10)))));
      [|reflexivity].
    apply Math_round_comp. rewrite Hc. reflexivity. }
  split; [|exact H].
  rewrite <- H. unfold combineRiskScores, combined_formula.
  apply round_clamp_commute.
Qed.

Lemma combined_60_half_is_57_witness :
  combineRiskScores 60 (Some (opinion false (2 # 4))) = 57
  /\ combined_formula 60 (confidence (opinion false (2 # 4))) = 57.
Proof.
  apply (combined_60_half_is_57 (opinion false (2 # 4))). reflexivity.
Defined.

(** ** The final action *)

(** The plain threshold ladder of the specification. *)
Definition threshold_ladder (env : EnvironmentConfig) (combined : Z) : Action :=
  if decide (FRAUD_BLOCK_THRESHOLD env <= combined) then block
  else if decide (FRAUD_REVIEW_THRESHOLD env <= combined) then review
  else if decide (FRAUD_FLAG_THRESHOLD env <= combined) then flag
  else allow.

(** The ladder of the AI path: it stops at [flag]. *)
Definition ai_ladder (env : EnvironmentConfig) (combined : Z) : Action :=
  if decide (FRAUD_BLOCK_THRESHOLD env <= combined) then block
  else if decide (FRAUD_REVIEW_THRESHOLD env <= combined) then review
  else flag.

(** An AI opinion exists, says fraud, and is confident enough. *)
Definition ai_high_confidence_fraud (env : EnvironmentConfig)
    (ai : option AIFraudAnalysis) : Prop :=
  exists a, ai = Some a
            /\ ai_isFraudulent a = true
            /\ (AI_CONFIDENCE_THRESHOLD env <= confidence a)%Q.

Lemma ai_ladder_never_allows (env : EnvironmentConfig) (combined : Z) :
  ai_ladder env combined <> allow.
Proof. unfold ai_ladder. repeat case_decide; discriminate. Qed.

Lemma ladder_code_is_threshold_ladder (env : EnvironmentConfig) (c : Z) :
  (if FRAUD_BLOCK_THRESHOLD env <=? c then (block, "High combined risk score")
   else if FRAUD_REVIEW_THRESHOLD env <=? c then (review, "Elevated risk detected")
   else if FRAUD_FLAG_THRESHOLD env <=? c then (flag, "Moderate risk detected")
   else (allow, "Low risk transaction")).1 = threshold_ladder env c.
Proof.
  unfold threshold_ladder.
  repeat case_leb; repeat case_decide; simpl; try reflexivity; lia.
Qed.

(** C7. When an AI opinion exists with [isFraudulent] true and confidence at
    least [AI_CONFIDENCE_THRESHOLD], the final action is block from
    [BLOCK_THRESHOLD] up, else review from [REVIEW_THRESHOLD] up, else flag,
    hence never allow, also below [FLAG_THRESHOLD].  In every other case the
    plain ladder on the combined score decides: block, review, flag, allow. *)
Theorem determineFinalAction_policy (env : EnvironmentConfig)
    (traditionalResult : FraudDetectionResult) (ai : option AIFraudAnalysis)
    (combined : Z) :
  (ai_high_confidence_fraud env ai ->
     (determineFinalAction env traditionalResult ai combined).1
       = ai_ladder env combined
     /\ (determineFinalAction env traditionalResult ai combined).1 <> allow)
  /\ (~ ai_high_confidence_fraud env ai ->
     (determineFinalAction env traditionalResult ai combined).1
       = threshold_ladder env combined).
Proof.
  split.
  - intros (a & -> & Hf & Hc).
    assert (E : (determineFinalAction env traditionalResult (Some a) combined).1
                = ai_ladder env combined).
    { unfold determineFinalAction, ai_ladder. rewrite Hf.
      apply Qle_bool_iff in Hc. rewrite Hc. simpl.
      repeat case_leb; repeat case_decide; simpl; try reflexivity; lia. }
    split; [exact E|]. rewrite E. apply ai_ladder_never_allows.
  - intros Hno. unfold determineFinalAction.
    destruct ai as [a|]; [|apply ladder_code_is_threshold_ladder].
    destruct (ai_isFraudulent a && Qle_bool (AI_CONFIDENCE_THRESHOLD env) (confidence a))
      eqn:Hpath; [|apply ladder_code_is_threshold_ladder].
    exfalso. apply Hno. exists a.
    apply andb_true_iff in Hpath as [Hf Hc].
    apply Qle_bool_iff in Hc. auto.
Qed.

(** The override scenario of the specification: traditional 20, AI says fraud
    with confidence 0.9, combined 41, below the review threshold: flag. *)
Example determineFinalAction_override (t : FraudDetectionResult) :
  determineFinalAction (ENV_with true "key") t (Some (opinion true (9 # 10))) 41
  = (flag, "AI detected potential risk").
Proof. reflexivity. Qed.

Example determineFinalAction_override_below_flag (t : FraudDetectionResult) :
  determineFinalAction (ENV_with true "key") t (Some (opinion true (9 # 10))) 27
  = (flag, "AI detected potential risk")
  /\ determineFinalAction (ENV_with true "key") t (Some (opinion false (9 # 10))) 27
     = (allow, "Low risk transaction").
Proof. split; reflexivity. Qed.

(** ** The risk score *)

Definition fired (transaction : Transaction) (rule : FraudRule) : bool :=
  enabled rule && condition rule transaction.

(** The weights of the enabled rules whose condition holds, in registry order. *)
Definition fired_weights (rules : list FraudRule) (transaction : Transaction)
    : list Z :=
  List.map weight (List.filter (fired transaction) rules).

Definition Zsum (l : list Z) : Z := foldr Z.add 0 l.

(** What the three detectors add: +30 velocity, +25 amount, +20 geographic. *)
Definition detector_contributions (env : EnvironmentConfig)
    (db : list Transaction) (now : Z) (transaction : Transaction)
    (store : gmap string SandboxVelocity) : Z :=
  (if (checkVelocityFraud env (customerEmail transaction) (merchantId transaction)
         (VELOCITY_WINDOW_MS env) now store).1 then 30 else 0)
  + (if checkAmountAnomaly env (merchantId transaction) (amount transaction)
          (AMOUNT_ANOMALY_WINDOW_MS env) now db then 25 else 0)
  + (if checkGeographicAnomaly env (customerEmail transaction)
          (if truthy_string (ipAddress transaction)
           then default "" (ipAddress transaction) else "unknown")
          (GEO_ANOMALY_WINDOW_MS env) now db then 20 else 0).

Definition total_contributions (env : EnvironmentConfig) (rules : list FraudRule)
    (db : list Transaction) (now : Z) (transaction : Transaction)
    (store : gmap string SandboxVelocity) : Z :=
  Zsum (fired_weights rules transaction)
  + detector_contributions env db now transaction store.


(** The level that the fixed breakpoints give to a score. *)
Definition level_of_score (s : Z) : RiskLevel :=
  if decide (80 <= s) then critical
  else if decide (60 <= s) then high
  else if decide (40 <= s) then medium
  else low.

Lemma apply_rules_from (rules : list FraudRule) (transaction : Transaction)
    (acc : Z * list string) :
  (fold_left
     (fun acc rule =>
        if enabled rule && condition rule transaction
        then (acc.1 + weight rule, acc.2 ++ [rule_name rule])
        else acc)
     rules acc).1
  = acc.1 + Zsum (fired_weights rules transaction).
Proof.
  revert acc. induction rules as [|r rules IH]; intros acc; simpl.
  - unfold fired_weights; simpl. lia.
  - rewrite IH. unfold fired_weights, fired; simpl.
    destruct (enabled r && condition r transaction); simpl; lia.
Qed.

Lemma apply_rules_total (rules : list FraudRule) (transaction : Transaction) :
  (apply_rules rules transaction).1 = Zsum (fired_weights rules transaction).
Proof. unfold apply_rules. rewrite apply_rules_from. simpl. lia. Qed.

Lemma fired_weights_nonneg (rules : list FraudRule) (transaction : Transaction) :
  Forall (fun rule => 0 <= weight rule) rules ->
  0 <= Zsum (fired_weights rules transaction).
Proof.
  induction 1 as [|r rules Hr _ IH]; unfold fired_weights; simpl; [lia|].
  destruct (fired transaction r); simpl; [|exact IH].
  unfold fired_weights in IH. lia.
Qed.

Lemma detector_contributions_range (env : EnvironmentConfig)
    (db : list Transaction) (now : Z) (transaction : Transaction)
    (store : gmap string SandboxVelocity) :
  0 <= detector_contributions env db now transaction store <= 75.
Proof.
  unfold detector_contributions.
  repeat match goal with |- context [if ?b then _ else _] => destruct b end; lia.
Qed.

(** The returned score and level in terms of the running total. *)
Lemma calculateRiskScore_total (env : EnvironmentConfig) (rules : list FraudRule)
    (db : list Transaction) (now : Z) (transaction : Transaction)
    (store : gmap string SandboxVelocity) :
  let rs := (calculateRiskScore env rules db now transaction store).1 in
  let total := total_contributions env rules db now transaction store in
  score rs = Z.min total 100
  /\ level rs = (if 80 <=? total then critical
                 else if 60 <=? total then high
                 else if 40 <=? total then medium
                 else low).
Proof.
  cbv zeta. unfold total_contributions, detector_contributions, calculateRiskScore.
  rewrite <- apply_rules_total.
  destruct (apply_rules rules transaction) as [t0 f0]; simpl.
  destruct (checkVelocityFraud _ _ _ _ _ _) as [[|] st]; simpl;
    destruct (checkAmountAnomaly _ _ _ _ _ _); simpl;
    destruct (checkGeographicAnomaly _ _ _ _ _ _); simpl;
    rewrite ?Z.add_0_r, ?Z.add_assoc;
    repeat case_leb; simpl; split; try reflexivity; lia.
Qed.

(** The score never exceeds 100, whatever the registry holds. *)
Lemma calculateRiskScore_at_most_100 (env : EnvironmentConfig)
    (rules : list FraudRule) (db : list Transaction) (now : Z)
    (transaction : Transaction) (store : gmap string SandboxVelocity) :
  score (calculateRiskScore env rules db now transaction store).1 <= 100.
Proof.
  destruct (calculateRiskScore_total env rules db now transaction store) as [Hs _].
  rewrite Hs. lia.
Qed.


(** The specification's scenario: 1,500,000 NGN from a new customer at noon. *)
Definition scenario_transaction : Transaction := {|
  tx_id := None;
  amount := inject_Z 1500000;
  customerEmail := "customer@example.com";
  merchantId := "merchant_001";
  ipAddress := Some "192.168.1.100";
  createdAt := 43200000;
  status := pending;
  isNewCustomer := Some true;
  currency := Some "NGN";
  paymentMethod := Some "card";
  description := None
|}.

Lemma FRAUD_RULES_weights_nonneg : Forall (fun rule => 0 <= weight rule) FRAUD_RULES.
Proof. unfold FRAUD_RULES. repeat constructor; simpl; lia. Qed.


Example scenario_score :
  let rs := (calculateRiskScore (ENV_with false "") FRAUD_RULES [] 43200000
               scenario_transaction ∅).1 in
  score rs = 50 /\ level rs = medium
  /\ factors rs = ["High Transaction Amount"; "New Customer High Amount"].
Proof. vm_compute. repeat split. Qed.

(** C2. The level that [calculateRiskScore] returns is a function of the
    returned score alone, through the fixed breakpoints: critical from 80,
    high from 60 to 79, medium from 40 to 59, low below 40.  In particular a
    score of 79 gives high and a score of 80 gives critical. *)
Theorem calculateRiskScore_level_by_breakpoints (env : EnvironmentConfig)
    (rules : list FraudRule) (db : list Transaction) (now : Z)
    (transaction : Transaction) (store : gmap string SandboxVelocity) :
  let rs := (calculateRiskScore env rules db now transaction store).1 in
  level rs = level_of_score (score rs)
  /\ (level rs = critical <-> 80 <= score rs)
  /\ (level rs = high <-> 60 <= score rs < 80)
  /\ (level rs = medium <-> 40 <= score rs < 60)
  /\ (level rs = low <-> score rs < 40)
  /\ level_of_score 79 = high
  /\ level_of_score 80 = critical.
Proof.
  cbv zeta.
  destruct (calculateRiskScore_total env rules db now transaction store) as [Hs Hl].
  rewrite Hl, Hs. unfold level_of_score.
  repeat case_leb; repeat case_decide;
    repeat split; intros; try discriminate; try reflexivity; lia.
Qed.

(** ** Velocity *)

Definition fresh_counter (k : string) (now timeWindow : Z) : SandboxVelocity :=
  {| key := k; count := 1; expiresAt := now + timeWindow |}.

Definition bump (c : SandboxVelocity) : SandboxVelocity :=
  {| key := key c; count := count c + 1; expiresAt := expiresAt c |}.

(** The counter of [k] is missing, or its window is over at [now]. *)
Definition absent_or_expired (store : gmap string SandboxVelocity)
    (k : string) (now : Z) : Prop :=
  match store !! k with
  | None => True
  | Some c => expiresAt c <= now
  end.

(** Successive observations of one customer at one merchant, at the given
    instants, each on the store the previous one left. *)
Fixpoint velocity_calls (env : EnvironmentConfig) (customer merchant : string)
    (timeWindow : Z) (times : list Z) (store : gmap string SandboxVelocity)
    : list bool * gmap string SandboxVelocity :=
  match times with
  | [] => ([], store)
  | now :: later =>
      let '(r, store1) :=
        checkVelocityFraud env customer merchant timeWindow now store in
      let '(rs, store2) :=
        velocity_calls env customer merchant timeWindow later store1 in
      (r :: rs, store2)
  end.

Example velocity_seven_calls :
  (velocity_calls (ENV_with false "") "velocity@example.com" "merchant_001"
     3600000 [0; 10; 20; 30; 40; 50; 60; 3600000; 3600001] ∅).1
  = [false; false; false; false; false; true; true; false; false].
Proof. vm_compute. reflexivity. Qed.

Lemma checkVelocityFraud_reset (env : EnvironmentConfig)
    (customer merchant : string) (timeWindow now : Z)
    (store : gmap string SandboxVelocity) :
  absent_or_expired store (velocity_key merchant customer) now ->
  checkVelocityFraud env customer merchant timeWindow now store
  = (false,
     <[velocity_key merchant customer :=
         fresh_counter (velocity_key merchant customer) now timeWindow]> store).
Proof.
  unfold absent_or_expired, checkVelocityFraud, fresh_counter.
  destruct (store !! velocity_key merchant customer) as [c|]; [|reflexivity].
  intros Hexp. destruct (Z.leb_spec (expiresAt c) now); [reflexivity|lia].
Qed.

Lemma checkVelocityFraud_bump (env : EnvironmentConfig)
    (customer merchant : string) (timeWindow now : Z)
    (store : gmap string SandboxVelocity) (c : SandboxVelocity) :
  store !! velocity_key merchant customer = Some c ->
  now < expiresAt c ->
  checkVelocityFraud env customer merchant timeWindow now store
  = (bool_decide (VELOCITY_MAX_ATTEMPTS env < count c + 1),
     <[velocity_key merchant customer := bump c]> store).
Proof.
  intros Hc Hlive. unfold checkVelocityFraud, bump. rewrite Hc.
  destruct (Z.leb_spec (expiresAt c) now); [lia|]. simpl. f_equal.
  destruct (Z.ltb_spec (VELOCITY_MAX_ATTEMPTS env) (count c + 1)).
  - symmetry. apply bool_decide_eq_true. assumption.
  - symmetry. apply bool_decide_eq_false. lia.
Qed.

(** Observations inside a live window: the [i]-th of them (from 0) sees the
    count raised by [i + 1]; the window itself does not move. *)
Lemma velocity_calls_live (env : EnvironmentConfig)
    (customer merchant : string) (timeWindow : Z) (times : list Z) :
  forall (store : gmap string SandboxVelocity) (c : SandboxVelocity),
    store !! velocity_key merchant customer = Some c ->
    Forall (fun t => t < expiresAt c) times ->
    let run := velocity_calls env customer merchant timeWindow times store in
    (forall i : nat, (i < length times)%nat ->
       run.1 !! i
       = Some (bool_decide (VELOCITY_MAX_ATTEMPTS env < count c + Z.of_nat (S i))))
    /\ exists c', run.2 !! velocity_key merchant customer = Some c'
                  /\ expiresAt c' = expiresAt c.
Proof.
  induction times as [|now later IH]; intros store c Hc Hlive; cbv zeta.
  - split; [simpl; lia|]. exists c. split; [exact Hc|reflexivity].
  - apply Forall_cons in Hlive as [Hnow Hlater]. simpl.
    rewrite (checkVelocityFraud_bump _ _ _ _ _ _ c Hc Hnow).
    specialize (IH (<[velocity_key merchant customer := bump c]> store) (bump c)
                  (lookup_insert_eq _ _ _) Hlater).
    cbv zeta in IH.
    destruct (velocity_calls env customer merchant timeWindow later _) as [rs st2].
    simpl in *. destruct IH as [IHr IHs]. split; [|exact IHs].
    intros [|i] Hi; simpl.
    + reflexivity.
    + rewrite IHr by lia. do 2 f_equal.
      apply bool_decide_ext. lia.
Qed.

(** C3. For one velocity key (merchant and customer) and one window length,
    with [maxAttempts] at least 1:
    - on a counter that is absent or expired ([now >= expiresAt])
      [checkVelocityFraud] resets it to count 1 with
      [expiresAt = now + window] and returns false;
    - on an unexpired counter it increments the count and returns true
      exactly when the incremented count exceeds [maxAttempts];
    - so, for calls that start on an absent or expired counter and stay
      inside the window, the N-th call returns false for N <= maxAttempts,
      the (maxAttempts+1)-th returns true, and a call after the window has
      elapsed returns false again and restarts the counter. *)
Theorem checkVelocityFraud_window (env : EnvironmentConfig)
    (customer merchant : string) (timeWindow : Z) :
  let k := velocity_key merchant customer in
  let check := checkVelocityFraud env customer merchant timeWindow in
  let maxAttempts := VELOCITY_MAX_ATTEMPTS env in
  1 <= maxAttempts ->
  (forall store now,
     absent_or_expired store k now ->
     check now store = (false, <[k := fresh_counter k now timeWindow]> store))
  /\ (forall store now c,
        store !! k = Some c -> now < expiresAt c ->
        check now store
        = (bool_decide (maxAttempts < count c + 1), <[k := bump c]> store))
  /\ (forall store t0 later,
        absent_or_expired store k t0 ->
        Forall (fun t => t < t0 + timeWindow) later ->
        let run :=
          velocity_calls env customer merchant timeWindow (t0 :: later) store in
        (forall N : nat,
           (1 <= N <= length (t0 :: later))%nat ->
           Z.of_nat N <= maxAttempts ->
           run.1 !! (N - 1)%nat = Some false)
        /\ (forall N : nat,
              Z.of_nat N = maxAttempts + 1 ->
              (N <= length (t0 :: later))%nat ->
              run.1 !! (N - 1)%nat = Some true)
        /\ (forall t',
              t0 + timeWindow <= t' ->
              check t' run.2
              = (false, <[k := fresh_counter k t' timeWindow]> run.2))).
Proof.
  cbv zeta. intros Hmax. split; [|split].
  - intros store now. apply checkVelocityFraud_reset.
  - intros store now c. apply checkVelocityFraud_bump.
  - intros store t0 later Hstart Hlive. simpl.
    rewrite (checkVelocityFraud_reset _ _ _ _ _ _ Hstart).
    pose proof (velocity_calls_live env customer merchant timeWindow later
                  (<[velocity_key merchant customer :=
                       fresh_counter (velocity_key merchant customer) t0 timeWindow]>
                     store)
                  (fresh_counter (velocity_key merchant customer) t0 timeWindow)
                  (lookup_insert_eq _ _ _) Hlive) as Hrun.
    cbv zeta in Hrun.
    destruct (velocity_calls env customer merchant timeWindow later _) as [rs st2].
    simpl in *. destruct Hrun as [Hrs (c' & Hc' & Hexp)].
    split; [|split].
    + intros [|[|n]] HN Hle; simpl; [lia|reflexivity|].
      rewrite ?Nat.sub_0_r, Hrs by lia. f_equal.
      apply bool_decide_eq_false. lia.
    + intros [|[|n]] HN Hle; simpl; [lia|lia|].
      rewrite ?Nat.sub_0_r, Hrs by lia. f_equal.
      apply bool_decide_eq_true. lia.
    + intros t' Hlate. apply checkVelocityFraud_reset.
      unfold absent_or_expired. rewrite Hc', Hexp. exact Hlate.
Qed.

Lemma checkVelocityFraud_window_witness :
  let run :=
    velocity_calls (ENV_with false "") "velocity@example.com" "merchant_001"
      3600000 [0; 10; 20; 30; 40; 50] ∅ in
  run.1 !! 4%nat = Some false
  /\ run.1 !! 5%nat = Some true
  /\ (checkVelocityFraud (ENV_with false "") "velocity@example.com"
        "merchant_001" 3600000 3600000 run.2).1 = false.
Proof.
  cbv zeta.
  assert (Hmax : 1 <= VELOCITY_MAX_ATTEMPTS (ENV_with false "")) by (simpl; lia).
  destruct (checkVelocityFraud_window (ENV_with false "") "velocity@example.com"
              "merchant_001" 3600000 Hmax) as (_ & _ & Hrun).
  destruct (Hrun ∅ 0 [10; 20; 30; 40; 50]) as (Hfalse & Htrue & Hrestart).
  - unfold absent_or_expired. rewrite lookup_empty. exact I.
  - repeat constructor.
  - split; [|split].
    + apply (Hfalse 5%nat); simpl; lia.
    + apply (Htrue 6%nat); simpl; lia.
    + rewrite Hrestart by lia. reflexivity.
Defined.

(** ** Amount anomaly *)

Global Instance Status_eq_dec : EqDecision Status.
Proof. solve_decision. Defined.




Lemma Qgtb_lt (a b : Q) : Qgtb a b = true <-> (b < a)%Q.
Proof.
  unfold Qgtb. rewrite negb_true_iff. split.
  - intros H. apply Qnot_le_lt. intros Hle.
    apply Qle_bool_iff in Hle. congruence.
  - intros H. destruct (Qle_bool a b) eqn:E; [|reflexivity].
    apply Qle_bool_iff in E. exfalso. exact (Qlt_not_le _ _ H E).
Qed.



Lemma fold_left_Qmax_ge (l : list Q) (a : Q) : (a <= fold_left Qmax l a)%Q.
Proof.
  revert a. induction l as [|x l IH]; intros a; simpl.
  - apply Qle_refl.
  - eapply Qle_trans; [apply Q.le_max_l|apply IH].
Qed.







(** The history of the test suite: 50,000, 75,000 and 100,000, all successful. *)
Definition history_transaction (customer : string) (a : Z) (ip : option string)
    : Transaction := {|
  tx_id := None;
  amount := inject_Z a;
  customerEmail := customer;
  merchantId := "merchant_001";
  ipAddress := ip;
  createdAt := 1000;
  status := success;
  isNewCustomer := Some false;
  currency := Some "NGN";
  paymentMethod := Some "card";
  description := None
|}.

Definition amount_history : list Transaction := [
  history_transaction "test1@example.com" 50000 None;
  history_transaction "test2@example.com" 75000 None;
  history_transaction "test3@example.com" 100000 None
].

(** Mean 75,000 with multiplier 3 gives the bound 225,000, the maximum
    100,000 gives the bound 150,000: an amount of exactly 150,000 is not
    anomalous, 150,001 is; a merchant without history is never anomalous. *)
Example checkAmountAnomaly_boundaries :
  let check a :=
    checkAmountAnomaly (ENV_with false "") "merchant_001" (inject_Z a)
      86400000 2000 amount_history in
  check 500000 = true /\ check 80000 = false
  /\ check 150000 = false /\ check 150001 = true
  /\ checkAmountAnomaly (ENV_with false "") "merchant_002" (inject_Z 500000)
       86400000 2000 amount_history = false.
Proof. vm_compute. repeat split. Qed.

(** ** Geographic anomaly *)






Lemma fold_Set_add {A : Type} `{EqDecision A} (items acc : list A) :
  NoDup acc ->
  NoDup (fold_left Set_add items acc)
  /\ forall x, x ∈ fold_left Set_add items acc <-> x ∈ acc \/ x ∈ items.
Proof.
  revert acc. induction items as [|y items IH]; intros acc Hacc; simpl.
  - split; [exact Hacc|]. intros x. rewrite elem_of_nil. tauto.
  - assert (Hstep : NoDup (Set_add acc y)
                    /\ forall x, x ∈ Set_add acc y <-> x ∈ acc \/ x = y).
    { unfold Set_add. case_bool_decide as Hin.
      - split; [exact Hacc|]. intros x. split; [tauto|].
        intros [H| ->]; assumption.
      - split.
        + apply NoDup_app. split; [exact Hacc|]. split; [|apply NoDup_singleton].
          intros x Hx Hy. apply list_elem_of_singleton in Hy. subst. tauto.
        + intros x. rewrite elem_of_app, list_elem_of_singleton. tauto. }
    destruct Hstep as [Hnd Hel].
    destruct (IH _ Hnd) as [IHnd IHel]. split; [exact IHnd|].
    intros x. rewrite IHel, Hel, elem_of_cons. tauto.
Qed.



(** The history of the test suite: three transactions of one customer from
    three addresses, and a customer seen at one address only. *)
Definition geo_history : list Transaction := [
  history_transaction "geo@example.com" 50000 (Some "192.168.1.100");
  history_transaction "geo@example.com" 75000 (Some "192.168.1.101");
  history_transaction "geo@example.com" 100000 (Some "192.168.1.102");
  history_transaction "single@example.com" 50000 (Some "192.168.1.100");
  history_transaction "two@example.com" 50000 (Some "192.168.1.100");
  history_transaction "two@example.com" 50000 (Some "");
  history_transaction "two@example.com" 50000 None;
  history_transaction "two@example.com" 50000 (Some "192.168.1.101");
  history_transaction "two@example.com" 50000 (Some "192.168.1.100")
].

Example checkGeographicAnomaly_history :
  let check customer loc :=
    checkGeographicAnomaly (ENV_with false "") customer loc 86400000 2000
      geo_history in
  check "geo@example.com" "192.168.1.103" = true
  /\ check "geo@example.com" "192.168.1.100" = true
  /\ check "single@example.com" "192.168.1.100" = false
  /\ check "two@example.com" "10.0.0.1" = false
  /\ check "nobody@example.com" "10.0.0.1" = false.
Proof. vm_compute. repeat split. Qed.

(** ** Failure of the AI oracle *)

(** The oracle call of one analysis fails: analysis is switched off, the
    credential is missing, the request fails or times out, the reply is
    empty, or parsing throws. *)
Definition oracle_call_fails (env : EnvironmentConfig) (oracle : Oracle)
    (transaction : Transaction) : Prop :=
  AI_FRAUD_ANALYSIS_ENABLED env = false
  \/ GROQ_API_KEY env = ""
  \/ (exists msg, post oracle transaction = RequestError msg)
  \/ post oracle transaction = Response None
  \/ post oracle transaction = Response (Some "")
  \/ (exists text msg, post oracle transaction = Response (Some text)
                       /\ parseAIResponse oracle text transaction = Throw msg).

(** The fallback analysis that [AIFraudAnalysisService.analyzeTransaction]
    returns from its [catch]. *)
Definition fallback_analysis (env : EnvironmentConfig) (elapsed : Z)
    : AIFraudAnalysis := {|
  ai_isFraudulent := false;
  confidence := 0;
  reasoning := "AI analysis failed - using fallback assessment";
  riskFactors := ["AI analysis unavailable"];
  ai_recommendations := ["Manual review recommended due to AI analysis failure"];
  aiModel := AI_MODEL env;
  analysisTime := elapsed
|}.

(** The AI service never throws: a failed call returns the fallback analysis. *)
Lemma AI_analyzeTransaction_fallback (env : EnvironmentConfig) (oracle : Oracle)
    (startTime endTime : Z) (transaction : Transaction) :
  oracle_call_fails env oracle transaction ->
  AI_analyzeTransaction env oracle startTime endTime transaction
  = Ok (fallback_analysis env (endTime - startTime)).
Proof.
  unfold oracle_call_fails, AI_analyzeTransaction, fallback_analysis.
  intros [Hoff|[Hkey|[[msg Hreq]|[Hnone|[Hempty|(text & msg & Hresp & Hparse)]]]]].
  - rewrite Hoff. reflexivity.
  - rewrite Hkey. destruct (AI_FRAUD_ANALYSIS_ENABLED env); reflexivity.
  - rewrite Hreq. destruct (AI_FRAUD_ANALYSIS_ENABLED env); simpl;
      [destruct (String.eqb (GROQ_API_KEY env) "")|]; reflexivity.
  - rewrite Hnone. destruct (AI_FRAUD_ANALYSIS_ENABLED env); simpl;
      [destruct (String.eqb (GROQ_API_KEY env) "")|]; reflexivity.
  - rewrite Hempty. destruct (AI_FRAUD_ANALYSIS_ENABLED env); simpl;
      [destruct (String.eqb (GROQ_API_KEY env) "")|]; reflexivity.
  - rewrite Hresp. simpl. rewrite Hparse.
    destruct (AI_FRAUD_ANALYSIS_ENABLED env); simpl;
      [destruct (String.eqb (GROQ_API_KEY env) "")|]; simpl;
      try reflexivity.
    destruct (String.eqb text ""); reflexivity.
Qed.

Lemma AI_analyzeTransaction_never_throws (env : EnvironmentConfig)
    (oracle : Oracle) (startTime endTime : Z) (transaction : Transaction) :
  is_Ok (AI_analyzeTransaction env oracle startTime endTime transaction) = true.
Proof.
  unfold AI_analyzeTransaction.
  destruct (AI_FRAUD_ANALYSIS_ENABLED env); simpl; [|reflexivity].
  destruct (String.eqb (GROQ_API_KEY env) ""); simpl; [reflexivity|].
  destruct (post oracle transaction) as [msg|[text|]]; simpl; try reflexivity.
  destruct (String.eqb text ""); simpl; [reflexivity|].
  destruct (parseAIResponse oracle text transaction); reflexivity.
Qed.

(** [analyzeTransactionWithAI] returns normally on every input. *)
Lemma analyzeTransactionWithAI_returns (env : EnvironmentConfig) (oracle : Oracle)
    (rules : list FraudRule) (db : list Transaction)
    (now startTime endTime : Z) (transaction : Transaction)
    (store : gmap string SandboxVelocity) :
  is_Ok (analyzeTransactionWithAI env oracle rules db now startTime endTime
           transaction store).1 = true.
Proof.
  unfold analyzeTransactionWithAI.
  destruct (analyzeTransaction env rules db now transaction store). reflexivity.
Qed.

(** With AI analysis switched off, the result is not enhanced and carries
    the traditional score. *)
Lemma analyzeTransactionWithAI_disabled (env : EnvironmentConfig) (oracle : Oracle)
    (rules : list FraudRule) (db : list Transaction)
    (now startTime endTime : Z) (transaction : Transaction)
    (store : gmap string SandboxVelocity) :
  AI_FRAUD_ANALYSIS_ENABLED env = false ->
  exists r,
    (analyzeTransactionWithAI env oracle rules db now startTime endTime
       transaction store).1 = Ok r
    /\ aiEnhanced r = false
    /\ combinedRiskScore r
       = score (riskScore (analyzeTransaction env rules db now transaction store).1).
Proof.
  intros Hoff. unfold analyzeTransactionWithAI. rewrite Hoff.
  destruct (analyzeTransaction env rules db now transaction store) as [t st].
  eexists. split; [reflexivity|]. split; reflexivity.
Qed.

(** With AI analysis switched on, a failed oracle call still yields an
    "enhanced" result: the fallback analysis of confidence 0 is folded in, so
    the combined score is round(0.7 * traditional), clamped. *)
Lemma analyzeTransactionWithAI_enabled_failure (env : EnvironmentConfig)
    (oracle : Oracle) (rules : list FraudRule) (db : list Transaction)
    (now startTime endTime : Z) (transaction : Transaction)
    (store : gmap string SandboxVelocity) :
  AI_FRAUD_ANALYSIS_ENABLED env = true ->
  oracle_call_fails env oracle transaction ->
  exists r,
    (analyzeTransactionWithAI env oracle rules db now startTime endTime
       transaction store).1 = Ok r
    /\ aiEnhanced r = true
    /\ aiAnalysis r = Some (fallback_analysis env (endTime - startTime))
    /\ combinedRiskScore r
       = combined_formula
           (score (riskScore (analyzeTransaction env rules db now transaction
                                store).1)) 0.
Proof.
  intros Hon Hfail. unfold analyzeTransactionWithAI.
  rewrite Hon, (AI_analyzeTransaction_fallback _ _ _ _ _ Hfail).
  destruct (analyzeTransaction env rules db now transaction store) as [t st].
  eexists. split; [reflexivity|]. split; [reflexivity|]. split; [reflexivity|].
  simpl. apply round_clamp_commute.
Qed.

(** An oracle whose every request times out. *)
Definition unreachable_oracle : Oracle := {|
  post := fun _ => RequestError "timeout of 10000ms exceeded";
  parseAIResponse := fun _ _ => Throw "Unexpected token"
|}.

(** C8. The claim asks that a failed oracle call leave [aiEnhanced = false]
    and [combinedRiskScore] equal to the traditional score.  The code does so
    only when AI analysis is switched off.  With AI analysis switched on and
    the credential missing, or the request timing out, the scenario
    transaction has traditional score 50 and action review, and
    [analyzeTransactionWithAI] returns normally with [aiEnhanced = true],
    [combinedRiskScore = 35] and action flag: the fallback analysis of the AI
    service is folded in as if it were an opinion. *)
Theorem analyzeTransactionWithAI_folds_in_failed_call :
  score (riskScore (analyzeTransaction (ENV_with true "") FRAUD_RULES []
                      43200000 scenario_transaction ∅).1) = 50
  /\ action (analyzeTransaction (ENV_with true "") FRAUD_RULES []
               43200000 scenario_transaction ∅).1 = review
  /\ (exists r,
        (analyzeTransactionWithAI (ENV_with true "") unreachable_oracle
           FRAUD_RULES [] 43200000 43200000 43200005 scenario_transaction ∅).1
        = Ok r
        /\ aiEnhanced r = true
        /\ combinedRiskScore r = 35
        /\ action (base r) = flag)
  /\ (exists r,
        (analyzeTransactionWithAI (ENV_with true "gsk_key") unreachable_oracle
           FRAUD_RULES [] 43200000 43200000 43210000 scenario_transaction ∅).1
        = Ok r
        /\ aiEnhanced r = true
        /\ combinedRiskScore r = 35
        /\ action (base r) = flag)
  /\ (exists r,
        (analyzeTransactionWithAI (ENV_with false "") unreachable_oracle
           FRAUD_RULES [] 43200000 43200000 43200005 scenario_transaction ∅).1
        = Ok r
        /\ aiEnhanced r = false
        /\ combinedRiskScore r = 50
        /\ action (base r) = review).
Proof.
  split; [vm_compute; reflexivity|].
  split; [vm_compute; reflexivity|].
  split; [|split]; eexists; (split; [vm_compute; reflexivity|]);
    repeat split.
Qed.

(** ** A registry outside the data model *)

(** A rule with a negative weight, which [addFraudRule] accepts as it is. *)
Definition discount_rule : FraudRule := {|
  rule_id := "trusted_customer";
  rule_name := "Trusted Customer";
  rule_description := "Returning customer";
  weight := -10;
  enabled := true;
  condition := fun transaction =>
    match isNewCustomer transaction with Some true => false | _ => true end
|}.

Definition returning_customer_transaction : Transaction := {|
  tx_id := None;
  amount := inject_Z 25000;
  customerEmail := "test@example.com";
  merchantId := "merchant_001";
  ipAddress := Some "192.168.1.100";
  createdAt := 43200000;
  status := pending;
  isNewCustomer := Some false;
  currency := Some "NGN";
  paymentMethod := Some "card";
  description := None
|}.

(** The score is only cut off at 100: the assumption of C1 on the weights
    cannot be dropped. *)
Example negative_weight_gives_negative_score :
  let rules := (addFraudRule 0 (Some "trusted_customer") "Trusted Customer"
                  "Returning customer" (-10) true (condition discount_rule)
                  FRAUD_RULES).2 in
  score (calculateRiskScore (ENV_with false "") rules [] 43200000
           returning_customer_transaction ∅).1 = -10.
Proof. vm_compute. reflexivity. Qed.

(** * Further properties of the service *)

(** ** Managing known rules *)

Definition has_id (ruleId : string) (rule : FraudRule) : bool :=
  String.eqb (rule_id rule) ruleId.

(** A registry in which [ruleId] occurs splits at its first occurrence. *)
Lemma findIndex_split {A : Type} (p : A -> bool) (l : list A) :
  (exists x, x ∈ l /\ p x = true) ->
  exists before x after,
    l = before ++ x :: after
    /\ p x = true
    /\ Forall (fun y => p y = false) before
    /\ findIndex p l = Some (length before).
Proof.
  induction l as [|y l IH]; intros (x & Hx & Hp).
  - apply elem_of_nil in Hx. contradiction.
  - destruct (p y) eqn:Hy.
    + exists [], y, l. simpl. rewrite Hy. repeat split. constructor.
    + apply elem_of_cons in Hx as [->|Hx]; [congruence|].
      destruct IH as (before & z & after & -> & Hz & Hb & Hi); [eauto|].
      exists (y :: before), z, after. simpl. rewrite Hy, Hi.
      repeat split; [exact Hz|]. constructor; assumption.
Qed.

Lemma first_rule_with_id (rules : list FraudRule) (ruleId : string) :
  ruleId ∈ rule_id <$> rules ->
  exists before r after,
    rules = before ++ r :: after
    /\ rule_id r = ruleId
    /\ (ruleId ∉ rule_id <$> before)
    /\ findIndex (fun rule => String.eqb (rule_id rule) ruleId) rules
       = Some (length before).
Proof.
  intros Hin. apply list_elem_of_fmap in Hin as (r0 & Hid & Hr0).
  destruct (findIndex_split (fun rule => String.eqb (rule_id rule) ruleId) rules)
    as (before & r & after & Hsplit & Hr & Hb & Hi).
  { exists r0. split; [exact Hr0|]. apply String.eqb_eq. congruence. }
  exists before, r, after. split; [exact Hsplit|].
  split; [apply String.eqb_eq, Hr|]. split; [|exact Hi].
  intros Hmem. apply list_elem_of_fmap in Hmem as (y & Hy & Hyb).
  rewrite Forall_forall in Hb. specialize (Hb y Hyb).
  apply String.eqb_neq in Hb. congruence.
Qed.

Lemma alter_middle {A : Type} (f : A -> A) (before : list A) (x : A)
    (after : list A) :
  alter f (length before) (before ++ x :: after) = before ++ f x :: after.
Proof.
  rewrite <- (Nat.add_0_r (length before)) at 1. rewrite alter_app_r. reflexivity.
Qed.

(** X1. [updateFraudRule] on an id that occurs in the registry returns
    [true] and merges the updates into the first rule that carries the id;
    every other rule, the order and the length of the registry stay as they
    were. *)
Theorem updateFraudRule_first_match (rules : list FraudRule) (ruleId : string)
    (updates : FraudRuleUpdates) :
  ruleId ∈ rule_id <$> rules ->
  exists before r after,
    rules = before ++ r :: after
    /\ rule_id r = ruleId
    /\ (ruleId ∉ rule_id <$> before)
    /\ updateFraudRule ruleId updates rules
       = (true, before ++ spread_updates updates r :: after)
    /\ length (updateFraudRule ruleId updates rules).2 = length rules.
Proof.
  intros Hin.
  destruct (first_rule_with_id rules ruleId Hin)
    as (before & r & after & -> & Hid & Hb & Hi).
  exists before, r, after. unfold updateFraudRule.
  rewrite Hi, alter_middle. repeat split; try assumption.
  simpl. rewrite !length_app. reflexivity.
Qed.

Lemma updateFraudRule_first_match_witness :
  exists before r after,
    FRAUD_RULES = before ++ r :: after
    /\ rule_id r = "unusual_time"
    /\ ("unusual_time" ∉ rule_id <$> before)
    /\ updateFraudRule "unusual_time" no_updates FRAUD_RULES
       = (true, before ++ spread_updates no_updates r :: after)
    /\ length (updateFraudRule "unusual_time" no_updates FRAUD_RULES).2
       = length FRAUD_RULES.
Proof.
  apply (updateFraudRule_first_match FRAUD_RULES "unusual_time" no_updates).
  apply list_elem_of_In. simpl. tauto.
Defined.

(** X2. [removeFraudRule] on an id that occurs in the registry returns
    [true] and deletes exactly the first rule that carries the id, keeping the
    others in order.  When the ids of the registry are distinct, the id is
    gone afterwards and removing it again returns [false]. *)
Theorem removeFraudRule_first_match (rules : list FraudRule) (ruleId : string) :
  ruleId ∈ rule_id <$> rules ->
  exists before r after,
    rules = before ++ r :: after
    /\ rule_id r = ruleId
    /\ (ruleId ∉ rule_id <$> before)
    /\ removeFraudRule ruleId rules = (true, before ++ after)
    /\ (NoDup (rule_id <$> rules) ->
        (ruleId ∉ rule_id <$> (before ++ after))
        /\ removeFraudRule ruleId (before ++ after) = (false, before ++ after)).
Proof.
  intros Hin.
  destruct (first_rule_with_id rules ruleId Hin)
    as (before & r & after & -> & Hid & Hb & Hi).
  exists before, r, after. unfold removeFraudRule at 1.
  rewrite Hi, delete_middle. repeat split; try assumption.
  - intros Hin'. rewrite fmap_app in H, Hin'. simpl in H.
    apply NoDup_app in H as (_ & Hdisj & Hnd).
    apply NoDup_cons in Hnd as [Hnotin _].
    apply elem_of_app in Hin' as [Hl|Hr]; [exact (Hb Hl)|].
    rewrite Hid in Hnotin. exact (Hnotin Hr).
  - unfold removeFraudRule. rewrite unknown_id_not_found; [reflexivity|].
    intros Hin'. rewrite fmap_app in H, Hin'. simpl in H.
    apply NoDup_app in H as (_ & Hdisj & Hnd).
    apply NoDup_cons in Hnd as [Hnotin _].
    apply elem_of_app in Hin' as [Hl|Hr]; [exact (Hb Hl)|].
    rewrite Hid in Hnotin. exact (Hnotin Hr).
Qed.

Lemma removeFraudRule_first_match_witness :
  exists before r after,
    FRAUD_RULES = before ++ r :: after
    /\ rule_id r = "unusual_time"
    /\ ("unusual_time" ∉ rule_id <$> before)
    /\ removeFraudRule "unusual_time" FRAUD_RULES = (true, before ++ after)
    /\ (NoDup (rule_id <$> FRAUD_RULES) ->
        ("unusual_time" ∉ rule_id <$> (before ++ after))
        /\ removeFraudRule "unusual_time" (before ++ after)
           = (false, before ++ after)).
Proof.
  apply (removeFraudRule_first_match FRAUD_RULES "unusual_time").
  apply list_elem_of_In. simpl. tauto.
Defined.

Lemma findIndex_middle {A : Type} (p : A -> bool) (before : list A) (x : A)
    (after : list A) :
  Forall (fun y => p y = false) before ->
  p x = true ->
  findIndex p (before ++ x :: after) = Some (length before).
Proof.
  intros Hb Hx. induction Hb as [|y before Hy _ IH]; simpl.
  - rewrite Hx. reflexivity.
  - rewrite Hy, IH. reflexivity.
Qed.

Lemma no_rule_with_id (rules : list FraudRule) (ruleId : string) :
  ruleId ∉ rule_id <$> rules ->
  Forall (fun rule => String.eqb (rule_id rule) ruleId = false) rules.
Proof.
  intros Hnot. apply Forall_forall. intros r Hr.
  apply String.eqb_neq. intros Heq. apply Hnot.
  rewrite <- Heq. apply list_elem_of_fmap. exists r. split; [reflexivity|exact Hr].
Qed.

(** X3. [addFraudRule] always succeeds and appends the rule at the end of
    the registry.  For a non-empty id that the registry does not hold yet,
    removing that id right after brings back the registry as it was. *)
Theorem addFraudRule_then_remove (rules : list FraudRule) (ruleId : string)
    (now : Z) (name desc : string) (w : Z) (en : bool)
    (cond : Transaction -> bool) :
  ruleId <> "" ->
  ruleId ∉ rule_id <$> rules ->
  addFraudRule now (Some ruleId) name desc w en cond rules
  = (true, rules ++ [ {| rule_id := ruleId; rule_name := name;
                         rule_description := desc; weight := w;
                         enabled := en; condition := cond |} ])
  /\ removeFraudRule ruleId
       (addFraudRule now (Some ruleId) name desc w en cond rules).2
     = (true, rules).
Proof.
  intros Hne Hfresh.
  assert (Hadd : addFraudRule now (Some ruleId) name desc w en cond rules
                 = (true, rules ++ [ {| rule_id := ruleId; rule_name := name;
                                        rule_description := desc; weight := w;
                                        enabled := en; condition := cond |} ])).
  { unfold addFraudRule, truthy_string.
    destruct (String.eqb_spec ruleId "") as [E|_]; [contradiction|reflexivity]. }
  split; [exact Hadd|]. rewrite Hadd. simpl. unfold removeFraudRule.
  rewrite findIndex_middle.
  - rewrite delete_middle, app_nil_r. reflexivity.
  - apply no_rule_with_id, Hfresh.
  - simpl. apply String.eqb_refl.
Qed.

Lemma addFraudRule_then_remove_witness :
  addFraudRule 0 (Some "weekend_high_amount") "Weekend High Amount"
    "High amount transactions on weekends" 15 true (fun _ => false) FRAUD_RULES
  = (true, FRAUD_RULES ++ [ {| rule_id := "weekend_high_amount";
                               rule_name := "Weekend High Amount";
                               rule_description := "High amount transactions on weekends";
                               weight := 15; enabled := true;
                               condition := fun _ => false |} ])
  /\ removeFraudRule "weekend_high_amount"
       (addFraudRule 0 (Some "weekend_high_amount") "Weekend High Amount"
          "High amount transactions on weekends" 15 true (fun _ => false)
          FRAUD_RULES).2
     = (true, FRAUD_RULES).
Proof.
  apply (addFraudRule_then_remove FRAUD_RULES "weekend_high_amount" 0).
  - discriminate.
  - intros H%list_elem_of_In. simpl in H. intuition discriminate.
Defined.

(** X4. The management operations act on the first rule that carries the id
    and on nothing behind it.  So when a rule is added under an id that the
    registry already holds, which [addFraudRule] accepts, update, remove and
    toggle by that id still reach the older rule only and leave the rules
    appended later untouched. *)
Theorem management_reaches_first_match_only (rules later : list FraudRule)
    (ruleId : string) (updates : FraudRuleUpdates) (en : bool) :
  ruleId ∈ rule_id <$> rules ->
  updateFraudRule ruleId updates (rules ++ later)
  = (true, (updateFraudRule ruleId updates rules).2 ++ later)
  /\ removeFraudRule ruleId (rules ++ later)
     = (true, (removeFraudRule ruleId rules).2 ++ later)
  /\ toggleFraudRule ruleId en (rules ++ later)
     = (true, (toggleFraudRule ruleId en rules).2 ++ later).
Proof.
  intros Hin.
  destruct (first_rule_with_id rules ruleId Hin)
    as (before & r & after & -> & Hid & Hb & Hi).
  assert (Hi' : findIndex (fun rule => String.eqb (rule_id rule) ruleId)
                  ((before ++ r :: after) ++ later) = Some (length before)).
  { rewrite <- app_assoc. simpl. apply findIndex_middle.
    - apply no_rule_with_id, Hb.
    - apply String.eqb_eq, Hid. }
  unfold toggleFraudRule, updateFraudRule, removeFraudRule.
  rewrite Hi, Hi'. simpl.
  rewrite <- !app_assoc. simpl.
  rewrite !alter_middle, !delete_middle.
  rewrite <- !app_assoc. repeat split.
Qed.

Lemma management_reaches_first_match_only_witness :
  let newer := {| rule_id := "high_amount"; rule_name := "Second High Amount";
                  rule_description := "Added under an id that is taken";
                  weight := 40; enabled := true; condition := fun _ => true |} in
  updateFraudRule "high_amount" no_updates (FRAUD_RULES ++ [newer])
  = (true, (updateFraudRule "high_amount" no_updates FRAUD_RULES).2 ++ [newer])
  /\ removeFraudRule "high_amount" (FRAUD_RULES ++ [newer])
     = (true, (removeFraudRule "high_amount" FRAUD_RULES).2 ++ [newer])
  /\ toggleFraudRule "high_amount" false (FRAUD_RULES ++ [newer])
     = (true, (toggleFraudRule "high_amount" false FRAUD_RULES).2 ++ [newer]).
Proof.
  cbv zeta.
  apply (management_reaches_first_match_only FRAUD_RULES).
  apply list_elem_of_In. simpl. tauto.
Defined.

(** ** Rules and the score *)

Lemma fired_weights_app (rules1 rules2 : list FraudRule)
    (transaction : Transaction) :
  Zsum (fired_weights (rules1 ++ rules2) transaction)
  = Zsum (fired_weights rules1 transaction)
    + Zsum (fired_weights rules2 transaction).
Proof.
  unfold fired_weights. induction rules1 as [|r rules1 IH]; simpl; [lia|].
  destruct (fired transaction r); simpl; lia.
Qed.

Lemma fired_weights_cons (r : FraudRule) (rules : list FraudRule)
    (transaction : Transaction) :
  Zsum (fired_weights (r :: rules) transaction)
  = (if fired transaction r then weight r else 0)
    + Zsum (fired_weights rules transaction).
Proof.
  unfold fired_weights. simpl. destruct (fired transaction r); simpl; lia.
Qed.

(** X5. Toggling a rule changes the running total of every later score by
    that rule's own contribution and nothing else: the weight of the first
    rule with the id is taken out if it fired before, and put in if the rule
    is now enabled and its condition holds. *)
Theorem toggleFraudRule_changes_one_contribution (rules : list FraudRule)
    (ruleId : string) (en : bool) :
  ruleId ∈ rule_id <$> rules ->
  exists r,
    r ∈ rules /\ rule_id r = ruleId
    /\ forall env db now transaction store,
         total_contributions env (toggleFraudRule ruleId en rules).2 db now
           transaction store
         = total_contributions env rules db now transaction store
           - (if enabled r && condition r transaction then weight r else 0)
           + (if en && condition r transaction then weight r else 0).
Proof.
  intros Hin.
  destruct (first_rule_with_id rules ruleId Hin)
    as (before & r & after & -> & Hid & Hb & Hi).
  exists r. split; [apply elem_of_app; right; left|]. split; [exact Hid|].
  intros env db now transaction store.
  unfold toggleFraudRule, updateFraudRule, total_contributions.
  rewrite Hi, alter_middle. simpl.
  rewrite !fired_weights_app, !fired_weights_cons.
  unfold fired, spread_updates; simpl. lia.
Qed.

Lemma toggleFraudRule_changes_one_contribution_witness :
  exists r,
    r ∈ FRAUD_RULES /\ rule_id r = "high_amount"
    /\ forall env db now transaction store,
         total_contributions env (toggleFraudRule "high_amount" false FRAUD_RULES).2
           db now transaction store
         = total_contributions env FRAUD_RULES db now transaction store
           - (if enabled r && condition r transaction then weight r else 0)
           + (if false && condition r transaction then weight r else 0).
Proof.
  apply (toggleFraudRule_changes_one_contribution FRAUD_RULES "high_amount" false).
  apply list_elem_of_In. simpl. tauto.
Defined.

(** The factor names that the detectors add, in their fixed order. *)
Definition detector_factors (env : EnvironmentConfig)
    (db : list Transaction) (now : Z) (transaction : Transaction)
    (store : gmap string SandboxVelocity) : list string :=
  (if (checkVelocityFraud env (customerEmail transaction) (merchantId transaction)
         (VELOCITY_WINDOW_MS env) now store).1
   then ["High velocity transactions"] else [])
  ++ (if checkAmountAnomaly env (merchantId transaction) (amount transaction)
           (AMOUNT_ANOMALY_WINDOW_MS env) now db
      then ["Amount anomaly detected"] else [])
  ++ (if checkGeographicAnomaly env (customerEmail transaction)
           (if truthy_string (ipAddress transaction)
            then default "" (ipAddress transaction) else "unknown")
           (GEO_ANOMALY_WINDOW_MS env) now db
      then ["Geographic anomaly"] else []).

(** The recommendations attached to each level. *)
Definition recommendations_of (lvl : RiskLevel) : list string :=
  match lvl with
  | critical => ["Block transaction immediately"; "Flag customer for review"]
  | high => ["Review transaction manually"; "Request additional verification"]
  | medium => ["Monitor transaction closely"; "Consider additional verification"]
  | low => ["Proceed with normal processing"]
  end.

Lemma apply_rules_names_from (rules : list FraudRule) (transaction : Transaction)
    (acc : Z * list string) :
  (fold_left
     (fun acc rule =>
        if enabled rule && condition rule transaction
        then (acc.1 + weight rule, acc.2 ++ [rule_name rule])
        else acc)
     rules acc).2
  = acc.2 ++ List.map rule_name (List.filter (fired transaction) rules).
Proof.
  revert acc. induction rules as [|r rules IH]; intros acc; simpl.
  - rewrite app_nil_r. reflexivity.
  - rewrite IH. unfold fired at 2.
    destruct (enabled r && condition r transaction); simpl; [|reflexivity].
    rewrite <- app_assoc. reflexivity.
Qed.

(** X6. The factors of a risk score are the names of the enabled rules whose
    condition holds, in registry order and with repetitions kept, followed by
    the names of the detectors that fired in the order velocity, amount,
    geographic; the recommendations are the ones of the returned level. *)
Theorem calculateRiskScore_factors_in_order (env : EnvironmentConfig)
    (rules : list FraudRule) (db : list Transaction) (now : Z)
    (transaction : Transaction) (store : gmap string SandboxVelocity) :
  factors (calculateRiskScore env rules db now transaction store).1
  = List.map rule_name (List.filter (fired transaction) rules)
    ++ detector_factors env db now transaction store
  /\ recommendations (calculateRiskScore env rules db now transaction store).1
     = recommendations_of
         (level (calculateRiskScore env rules db now transaction store).1).
Proof.
  unfold calculateRiskScore, detector_factors.
  pose proof (apply_rules_names_from rules transaction (0, [])) as Hn.
  fold (apply_rules rules transaction) in Hn. simpl in Hn.
  destruct (apply_rules rules transaction) as [t0 f0]. simpl in Hn. subst f0.
  destruct (checkVelocityFraud _ _ _ _ _ _) as [[|] st]; simpl;
    destruct (checkAmountAnomaly _ _ _ _ _ _); simpl;
    destruct (checkGeographicAnomaly _ _ _ _ _ _); simpl;
    rewrite <- ?app_assoc, ?app_nil_r; simpl;
    repeat case_leb; simpl; split; reflexivity.
Qed.

Lemma analyzeTransaction_riskScore (env : EnvironmentConfig)
    (rules : list FraudRule) (db : list Transaction) (now : Z)
    (transaction : Transaction) (store : gmap string SandboxVelocity) :
  riskScore (analyzeTransaction env rules db now transaction store).1
  = (calculateRiskScore env rules db now transaction store).1
  /\ (analyzeTransaction env rules db now transaction store).2
     = (calculateRiskScore env rules db now transaction store).2.
Proof.
  unfold analyzeTransaction.
  destruct (calculateRiskScore env rules db now transaction store) as [rs st].
  simpl. repeat case_leb; split; reflexivity.
Qed.

Lemma builtin_rules_total (transaction : Transaction) :
  0 <= Zsum (fired_weights FRAUD_RULES transaction) <= 65.
Proof.
  unfold FRAUD_RULES. rewrite !fired_weights_cons.
  unfold fired; cbn [enabled condition weight andb].
  change (Zsum (fired_weights [] transaction)) with 0.
  repeat match goal with
         | |- context [if ?b then _ else _] => destruct b
         end; lia.
Qed.

(** X7. With the built-in registry the rules alone contribute at most 65
    (20 + 15 + 30; the three stub rules never fire).  So when no detector
    fires and the block threshold lies above 65, as the default 80 does, no
    transaction is blocked or marked fraudulent by the traditional analysis. *)
Theorem builtin_rules_never_block_alone (env : EnvironmentConfig)
    (db : list Transaction) (now : Z) (transaction : Transaction)
    (store : gmap string SandboxVelocity) :
  score (riskScore (analyzeTransaction env FRAUD_RULES db now transaction store).1)
    <= 65 + detector_contributions env db now transaction store
  /\ (detector_contributions env db now transaction store = 0 ->
      65 < FRAUD_BLOCK_THRESHOLD env ->
      action (analyzeTransaction env FRAUD_RULES db now transaction store).1
        <> block
      /\ isFraudulent
           (analyzeTransaction env FRAUD_RULES db now transaction store).1
         = false).
Proof.
  destruct (analyzeTransaction_riskScore env FRAUD_RULES db now transaction store)
    as [Hrs _].
  destruct (calculateRiskScore_total env FRAUD_RULES db now transaction store)
    as [Hs _].
  pose proof (builtin_rules_total transaction) as Hb.
  assert (Hle : score (riskScore (analyzeTransaction env FRAUD_RULES db now
                                    transaction store).1)
                <= 65 + detector_contributions env db now transaction store).
  { rewrite Hrs, Hs. unfold total_contributions. lia. }
  split; [exact Hle|]. intros Hd Hthr. rewrite Hd, Hrs in Hle.
  revert Hle. unfold analyzeTransaction.
  destruct (calculateRiskScore env FRAUD_RULES db now transaction store) as [rs st].
  simpl. intros Hle.
  destruct (Z.leb_spec (FRAUD_BLOCK_THRESHOLD env) (score rs)); [lia|].
  repeat case_leb; simpl; split; (discriminate || reflexivity).
Qed.

Lemma getHours_range (t : Z) : 0 <= getHours t < 24.
Proof. unfold getHours. apply Z.mod_pos_bound. lia. Qed.

(** X8. The built-in rule [unusual_time] fires exactly for the hours 0 to 5.
    Its second test, [hour > 23], never holds, so a transaction between
    23:00 and 23:59 does not fire it. *)
Theorem unusual_time_fires_before_six (rule : FraudRule)
    (transaction : Transaction) :
  rule ∈ FRAUD_RULES ->
  rule_id rule = "unusual_time" ->
  (condition rule transaction = true
   <-> getHours (createdAt transaction) < 6)
  /\ (getHours (createdAt transaction) = 23 -> condition rule transaction = false).
Proof.
  intros Hin Hid. pose proof (getHours_range (createdAt transaction)) as Hr.
  apply list_elem_of_In in Hin. simpl in Hin.
  destruct Hin as [<-|[<-|[<-|[<-|[<-|[<-|[]]]]]]]; try discriminate Hid.
  simpl. rewrite orb_true_iff, Z.ltb_lt, Z.ltb_lt. split.
  - split; [intros [H|H]; lia|intros H; left; exact H].
  - intros H23. apply orb_false_iff. split; apply Z.ltb_ge; lia.
Qed.

Lemma unusual_time_fires_before_six_witness :
  (condition
     {| rule_id := "unusual_time";
        rule_name := "Unusual Transaction Time";
        rule_description := "Transaction at unusual hours";
        weight := 15;
        enabled := true;
        condition := fun transaction =>
          let hour := getHours (createdAt transaction) in
          (hour <? 6) || (23 <? hour) |} scenario_transaction = true
   <-> getHours (createdAt scenario_transaction) < 6)
  /\ (getHours (createdAt scenario_transaction) = 23 ->
      condition
        {| rule_id := "unusual_time";
           rule_name := "Unusual Transaction Time";
           rule_description := "Transaction at unusual hours";
           weight := 15;
           enabled := true;
           condition := fun transaction =>
             let hour := getHours (createdAt transaction) in
             (hour <? 6) || (23 <? hour) |} scenario_transaction = false).
Proof.
  apply (unusual_time_fires_before_six _ scenario_transaction).
  - apply list_elem_of_In. simpl. tauto.
  - reflexivity.
Defined.

(** X9. The fields of a traditional result agree with each other: the
    action is block exactly when [isFraudulent] is set, review exactly when
    the result is flagged but not fraudulent, and allow exactly when no reason
    is given; a result whose action is flag is not [flagged].  When the review
    threshold does not exceed the block threshold, a fraudulent result is
    flagged as well. *)
Theorem analyzeTransaction_fields_agree (env : EnvironmentConfig)
    (rules : list FraudRule) (db : list Transaction) (now : Z)
    (transaction : Transaction) (store : gmap string SandboxVelocity) :
  let r := (analyzeTransaction env rules db now transaction store).1 in
  (action r = block <-> isFraudulent r = true)
  /\ (action r = review <-> flagged r = true /\ isFraudulent r = false)
  /\ (action r = allow <-> reason r = None)
  /\ (action r = flag -> flagged r = false)
  /\ (FRAUD_REVIEW_THRESHOLD env <= FRAUD_BLOCK_THRESHOLD env ->
      isFraudulent r = true -> flagged r = true).
Proof.
  cbv zeta. unfold analyzeTransaction.
  destruct (calculateRiskScore env rules db now transaction store) as [rs st].
  simpl.
  destruct (Z.leb_spec (FRAUD_BLOCK_THRESHOLD env) (score rs));
    destruct (Z.leb_spec (FRAUD_REVIEW_THRESHOLD env) (score rs));
    destruct (Z.leb_spec (FRAUD_FLAG_THRESHOLD env) (score rs)); simpl;
    repeat split; intros; try discriminate; try reflexivity;
    try (destruct_and?; discriminate); lia.
Qed.

(** ** The velocity store *)

(** X10. One velocity observation touches the counter of its own key and no
    other.  Afterwards that counter exists; it is unexpired at the instant of
    the observation when the window is positive; its count is at least 1 when
    the count before was not negative; and [true] is only reported together
    with a stored count above [VELOCITY_MAX_ATTEMPTS]. *)
Theorem checkVelocityFraud_touches_one_counter (env : EnvironmentConfig)
    (customer merchant : string) (timeWindow now : Z)
    (store : gmap string SandboxVelocity) :
  let k := velocity_key merchant customer in
  let after := checkVelocityFraud env customer merchant timeWindow now store in
  (forall k', k' <> k -> after.2 !! k' = store !! k')
  /\ exists c,
       after.2 !! k = Some c
       /\ (0 < timeWindow -> now < expiresAt c)
       /\ ((forall c0, store !! k = Some c0 -> 0 <= count c0) -> 1 <= count c)
       /\ (after.1 = true -> VELOCITY_MAX_ATTEMPTS env < count c).
Proof.
  cbv zeta. unfold checkVelocityFraud.
  destruct (store !! velocity_key merchant customer) as [c0|] eqn:Hc0.
  - destruct (Z.leb_spec (expiresAt c0) now) as [Hexp|Hlive]; simpl.
    + split; [intros k' Hk'; apply lookup_insert_ne; congruence|].
      eexists. split; [apply lookup_insert_eq|]. simpl.
      repeat split; intros; (lia || discriminate).
    + split; [intros k' Hk'; apply lookup_insert_ne; congruence|].
      eexists. split; [apply lookup_insert_eq|]. simpl.
      split; [intros; exact Hlive|]. split.
      * intros Hpos. specialize (Hpos c0 eq_refl). lia.
      * intros Hres. apply Z.ltb_lt in Hres. exact Hres.
  - simpl. split; [intros k' Hk'; apply lookup_insert_ne; congruence|].
    eexists. split; [apply lookup_insert_eq|]. simpl.
    repeat split; intros; (lia || discriminate).
Qed.


Lemma velocity_key_customer_inj (merchant customer1 customer2 : string) :
  velocity_key merchant customer1 = velocity_key merchant customer2 ->
  customer1 = customer2.
Proof.
  unfold velocity_key. intros H.
  repeat (apply String.app_inj in H). exact H.
Qed.

(** X12. For one merchant the velocity key tells customers apart.  Across
    merchants it does not: the key only joins the two identifiers with a
    colon, so two different merchant and customer pairs can share a key, and
    with it one counter. *)
Theorem velocity_key_collisions :
  (forall merchant customer1 customer2,
     velocity_key merchant customer1 = velocity_key merchant customer2 ->
     customer1 = customer2)
  /\ exists merchant1 customer1 merchant2 customer2,
       (merchant1, customer1) <> (merchant2, customer2)
       /\ velocity_key merchant1 customer1 = velocity_key merchant2 customer2
       /\ forall env timeWindow now,
            0 < timeWindow ->
            1 = VELOCITY_MAX_ATTEMPTS env ->
            (checkVelocityFraud env customer2 merchant2 timeWindow now
               (checkVelocityFraud env customer1 merchant1 timeWindow now ∅).2).1
            = true.
Proof.
  split; [exact velocity_key_customer_inj|].
  exists "shop:eu", "ann@example.com", "shop", "eu:ann@example.com".
  split; [discriminate|]. split; [reflexivity|].
  intros env timeWindow now Hw Hmax.
  rewrite (checkVelocityFraud_reset env "ann@example.com" "shop:eu" timeWindow now ∅)
    by (unfold absent_or_expired; rewrite lookup_empty; exact I).
  rewrite (checkVelocityFraud_bump env "eu:ann@example.com" "shop" timeWindow now _
             (fresh_counter (velocity_key "shop:eu" "ann@example.com") now timeWindow)).
  - simpl. apply bool_decide_eq_true. lia.
  - apply lookup_insert_eq.
  - simpl. lia.
Qed.

(** ** More on combining scores *)

From Stdlib Require Import Lqa.

(** The weighted sum of [combineRiskScores] before rounding. *)
Definition weighted_sum (T : Z) (c : Q) : Q :=
  (inject_Z T * (7 # 10) + (c * inject_Z 100) * (3 # 10))%Q.

Lemma combineRiskScores_weighted (T : Z) (a : AIFraudAnalysis) :
  combineRiskScores T (Some a)
  = Z.min 100 (Z.max 0 (Math_round (weighted_sum T (confidence a)))).
Proof. reflexivity. Qed.

Lemma weighted_sum_mono (T1 T2 : Z) (c1 c2 : Q) :
  T1 <= T2 -> (c1 <= c2)%Q -> (weighted_sum T1 c1 <= weighted_sum T2 c2)%Q.
Proof.
  intros HT Hc. rewrite Zle_Qle in HT. unfold weighted_sum.
  assert (H100 : (c1 * inject_Z 100 <= c2 * inject_Z 100)%Q)
    by (apply Qmult_le_compat_r; [exact Hc|discriminate]).
  lra.
Qed.

(** X13. [combineRiskScores] reads the confidence of the AI opinion and
    nothing else: two opinions of equal confidence give the same combined
    score, whatever their verdicts, so a confident "not fraudulent" weighs as
    much as a confident "fraudulent". *)
Theorem combineRiskScores_ignores_verdict (T : Z) (a b : AIFraudAnalysis) :
  (confidence a == confidence b)%Q ->
  combineRiskScores T (Some a) = combineRiskScores T (Some b).
Proof.
  intros Hc. rewrite !combineRiskScores_weighted.
  do 2 f_equal. apply Math_round_comp. unfold weighted_sum. rewrite Hc. reflexivity.
Qed.

Lemma combineRiskScores_ignores_verdict_witness :
  combineRiskScores 20 (Some (opinion true (9 # 10)))
  = combineRiskScores 20 (Some (opinion false (18 # 20))).
Proof.
  apply (combineRiskScores_ignores_verdict 20 (opinion true (9 # 10))
           (opinion false (18 # 20))).
  reflexivity.
Defined.

(** X14. With an AI opinion the combined score always lies in [0,100],
    also for a traditional score or a confidence out of range, and it grows
    with the traditional score and with the confidence. *)
Theorem combineRiskScores_monotone (T1 T2 : Z) (a b : AIFraudAnalysis) :
  T1 <= T2 ->
  (confidence a <= confidence b)%Q ->
  combineRiskScores T1 (Some a) <= combineRiskScores T2 (Some b)
  /\ 0 <= combineRiskScores T1 (Some a) <= 100.
Proof.
  intros HT Hc. rewrite !combineRiskScores_weighted.
  pose proof (Math_round_mono _ _ (weighted_sum_mono _ _ _ _ HT Hc)). lia.
Qed.

Lemma combineRiskScores_monotone_witness :
  combineRiskScores (-40) (Some (opinion false (1 # 10)))
    <= combineRiskScores 250 (Some (opinion false 7))
  /\ 0 <= combineRiskScores (-40) (Some (opinion false (1 # 10))) <= 100.
Proof.
  apply (combineRiskScores_monotone (-40) 250 (opinion false (1 # 10))
           (opinion false 7)).
  - lia.
  - discriminate.
Defined.

(** X15. The combined score lies between the traditional score and the AI
    score [100 * confidence]: an opinion whose AI score is at most the
    traditional score cannot raise it, and one whose AI score is at least the
    traditional score cannot lower it. *)
Theorem combineRiskScores_between (T : Z) (a : AIFraudAnalysis) :
  0 <= T <= 100 ->
  ((confidence a * inject_Z 100 <= inject_Z T)%Q ->
     combineRiskScores T (Some a) <= T)
  /\ ((inject_Z T <= confidence a * inject_Z 100)%Q ->
        T <= combineRiskScores T (Some a)).
Proof.
  intros HT. rewrite combineRiskScores_weighted. split; intros Hc.
  - assert (Hx : (weighted_sum T (confidence a) <= inject_Z T)%Q)
      by (unfold weighted_sum; lra).
    apply Math_round_mono in Hx. rewrite Math_round_Z in Hx. lia.
  - assert (Hx : (inject_Z T <= weighted_sum T (confidence a))%Q)
      by (unfold weighted_sum; lra).
    apply Math_round_mono in Hx. rewrite Math_round_Z in Hx. lia.
Qed.

Lemma combineRiskScores_between_witness :
  ((confidence (opinion false 0) * inject_Z 100 <= inject_Z 80)%Q ->
     combineRiskScores 80 (Some (opinion false 0)) <= 80)
  /\ ((inject_Z 80 <= confidence (opinion false 0) * inject_Z 100)%Q ->
        80 <= combineRiskScores 80 (Some (opinion false 0))).
Proof.
  apply (combineRiskScores_between 80 (opinion false 0)). lia.
Defined.

(** ** More on the final action *)

(** How severe an action is: allow, flag, review, block. *)
Definition severity (a : Action) : Z :=
  match a with
  | allow => 0
  | flag => 1
  | review => 2
  | block => 3
  end.

(** X16. With thresholds in the order flag <= review <= block, the final
    action never gets milder when the combined score grows, and an AI opinion
    can only make it more severe than the plain ladder would: it never turns a
    block, review or flag of the ladder into something milder. *)
Theorem determineFinalAction_severity (env : EnvironmentConfig)
    (traditionalResult : FraudDetectionResult) (ai : option AIFraudAnalysis)
    (c1 c2 : Z) :
  FRAUD_FLAG_THRESHOLD env <= FRAUD_REVIEW_THRESHOLD env
    <= FRAUD_BLOCK_THRESHOLD env ->
  c1 <= c2 ->
  severity (determineFinalAction env traditionalResult ai c1).1
    <= severity (determineFinalAction env traditionalResult ai c2).1
  /\ severity (determineFinalAction env traditionalResult None c1).1
     <= severity (determineFinalAction env traditionalResult ai c1).1.
Proof.
  intros Hthr Hc. unfold determineFinalAction.
  destruct ai as [a|]; [destruct (ai_isFraudulent a && _)|];
    repeat case_leb; simpl; lia.
Qed.

Lemma determineFinalAction_severity_witness :
  severity (determineFinalAction (ENV_with true "key")
              {| isFraudulent := false;
                 riskScore := {| score := 20; level := low; factors := [];
                                 recommendations := [] |};
                 flagged := false; reason := None; action := allow |}
              (Some (opinion true (9 # 10))) 27).1
    <= severity (determineFinalAction (ENV_with true "key")
                   {| isFraudulent := false;
                      riskScore := {| score := 20; level := low; factors := [];
                                      recommendations := [] |};
                      flagged := false; reason := None; action := allow |}
                   (Some (opinion true (9 # 10))) 41).1
  /\ severity (determineFinalAction (ENV_with true "key")
                 {| isFraudulent := false;
                    riskScore := {| score := 20; level := low; factors := [];
                                    recommendations := [] |};
                    flagged := false; reason := None; action := allow |}
                 None 27).1
     <= severity (determineFinalAction (ENV_with true "key")
                    {| isFraudulent := false;
                       riskScore := {| score := 20; level := low; factors := [];
                                       recommendations := [] |};
                       flagged := false; reason := None; action := allow |}
                    (Some (opinion true (9 # 10))) 27).1.
Proof.
  apply (determineFinalAction_severity (ENV_with true "key")); simpl; lia.
Defined.

(** An enhanced result takes its score and its action from the
    combined score, but keeps the level, [isFraudulent] and [flagged] of the
    traditional analysis; its reason is always present (the one of the final
    action), and [aiEnhanced] says whether an AI analysis is attached. *)
Lemma analyzeTransactionWithAI_fields (env : EnvironmentConfig)
    (oracle : Oracle) (rules : list FraudRule) (db : list Transaction)
    (now startTime endTime : Z) (transaction : Transaction)
    (store : gmap string SandboxVelocity) :
  let traditional := (analyzeTransaction env rules db now transaction store).1 in
  exists r,
    (analyzeTransactionWithAI env oracle rules db now startTime endTime
       transaction store).1 = Ok r
    /\ combinedRiskScore r
       = combineRiskScores (score (riskScore traditional)) (aiAnalysis r)
    /\ score (riskScore (base r)) = combinedRiskScore r
    /\ action (base r)
       = (determineFinalAction env traditional (aiAnalysis r)
            (combinedRiskScore r)).1
    /\ reason (base r)
       = Some (determineFinalAction env traditional (aiAnalysis r)
                 (combinedRiskScore r)).2
    /\ level (riskScore (base r)) = level (riskScore traditional)
    /\ isFraudulent (base r) = isFraudulent traditional
    /\ flagged (base r) = flagged traditional
    /\ (aiEnhanced r = true <-> is_Some (aiAnalysis r))
    /\ (AI_FRAUD_ANALYSIS_ENABLED env = false -> aiAnalysis r = None).
Proof.
  cbv zeta. unfold analyzeTransactionWithAI.
  destruct (analyzeTransaction env rules db now transaction store) as [t st].
  eexists. split; [reflexivity|]. simpl.
  do 3 (split; [reflexivity|]).
  split.
  { set (ai := if AI_FRAUD_ANALYSIS_ENABLED env then _ else _).
    unfold determineFinalAction.
    destruct ai as [a|]; [destruct (ai_isFraudulent a && _)|];
      repeat case_leb; reflexivity. }
  do 3 (split; [reflexivity|]).
  split; [apply bool_decide_eq_true|].
  intros ->. reflexivity.
Qed.

(** X17. While AI analysis is switched on and the oracle call fails, the
    combined score is at most 70 for every transaction, because the fallback
    analysis of confidence 0 is weighed in; with a block threshold above 70,
    as the default 80 is, no transaction is blocked by the enhanced analysis
    during such an outage, whatever its traditional score. *)
Theorem oracle_outage_never_blocks (env : EnvironmentConfig) (oracle : Oracle)
    (rules : list FraudRule) (db : list Transaction)
    (now startTime endTime : Z) (transaction : Transaction)
    (store : gmap string SandboxVelocity) :
  AI_FRAUD_ANALYSIS_ENABLED env = true ->
  oracle_call_fails env oracle transaction ->
  70 < FRAUD_BLOCK_THRESHOLD env ->
  exists r,
    (analyzeTransactionWithAI env oracle rules db now startTime endTime
       transaction store).1 = Ok r
    /\ combinedRiskScore r <= 70
    /\ action (base r) <> block.
Proof.
  intros Hon Hfail Hthr.
  pose proof (calculateRiskScore_at_most_100 env rules db now transaction store)
    as H100.
  destruct (analyzeTransaction_riskScore env rules db now transaction store)
    as [Hrs _]. rewrite <- Hrs in H100.
  unfold analyzeTransactionWithAI.
  rewrite Hon, (AI_analyzeTransaction_fallback _ _ _ _ _ Hfail).
  destruct (analyzeTransaction env rules db now transaction store) as [t st].
  simpl in H100. eexists. split; [reflexivity|]. simpl.
  assert (Hc : combineRiskScores (score (riskScore t))
                 (Some (fallback_analysis env (endTime - startTime))) <= 70).
  { rewrite combineRiskScores_weighted.
    assert (Hx : (weighted_sum (score (riskScore t))
                    (confidence (fallback_analysis env (endTime - startTime)))
                  <= inject_Z 70)%Q).
    { unfold weighted_sum; simpl. rewrite Zle_Qle in H100.
      assert (E : (inject_Z 100 * (7 # 10) == inject_Z 70)%Q) by reflexivity.
      lra. }
    apply Math_round_mono in Hx. rewrite Math_round_Z in Hx. lia. }
  split; [exact Hc|].
  unfold determineFinalAction, fallback_analysis in *; simpl in *.
  repeat case_leb; simpl; try discriminate. lia.
Qed.

Lemma oracle_outage_never_blocks_witness :
  exists r,
    (analyzeTransactionWithAI (ENV_with true "") unreachable_oracle FRAUD_RULES
       [] 43200000 43200000 43200005 scenario_transaction ∅).1 = Ok r
    /\ combinedRiskScore r <= 70
    /\ action (base r) <> block.
Proof.
  apply (oracle_outage_never_blocks (ENV_with true "") unreachable_oracle
           FRAUD_RULES [] 43200000 43200000 43200005 scenario_transaction ∅).
  - reflexivity.
  - right. left. reflexivity.
  - simpl. lia.
Defined.

(** ** Merging factors and recommendations *)

(** One pass of the [forEach] of [combineRiskFactors]. *)
Definition merge_step (combined : list string) (item : string) : list string :=
  if existsb (fun t => includes (toLowerCase t) (toLowerCase item)) combined
  then combined
  else combined ++ ["AI: " +:+ item].

Lemma combine_with_ai_unfold (traditional aiItems : list string) :
  combine_with_ai traditional aiItems
  = new_Set (fold_left merge_step aiItems traditional).
Proof. reflexivity. Qed.

Lemma prefix_refl (s : string) : String.prefix s s = true.
Proof.
  induction s as [|c s IH]; simpl; [reflexivity|].
  destruct (Ascii.ascii_dec c c); [exact IH|congruence].
Qed.

Lemma includes_app_r (a b : string) : includes (a +:+ b) b = true.
Proof.
  induction a as [|c a IH]; simpl.
  - destruct b; simpl; [reflexivity|].
    destruct (Ascii.ascii_dec a a); [|congruence].
    rewrite prefix_refl. reflexivity.
  - rewrite IH. apply orb_true_r.
Qed.

Lemma toLowerCase_app (a b : string) :
  toLowerCase (a +:+ b) = toLowerCase a +:+ toLowerCase b.
Proof. induction a as [|c a IH]; simpl; [reflexivity|]. by rewrite IH. Qed.

(** [t] stands for the AI item: it contains the item, case aside. *)
Definition mentions (t item : string) : Prop :=
  includes (toLowerCase t) (toLowerCase item) = true.

Lemma merge_fold (items acc : list string) :
  (forall x, x ∈ acc -> x ∈ fold_left merge_step items acc)
  /\ (forall x, x ∈ fold_left merge_step items acc ->
        x ∈ acc \/ exists item, item ∈ items /\ x = "AI: " +:+ item)
  /\ (forall item, item ∈ items ->
        exists x, x ∈ fold_left merge_step items acc /\ mentions x item).
Proof.
  revert acc. induction items as [|i items IH]; intros acc; simpl.
  - split; [auto|]. split; [auto|]. intros item Hin.
    apply elem_of_nil in Hin. contradiction.
  - destruct (IH (merge_step acc i)) as (Hgrow & Horigin & Hcover).
    assert (Hstep : forall x, x ∈ acc -> x ∈ merge_step acc i).
    { intros x Hx. unfold merge_step.
      destruct (existsb _ acc); [exact Hx|]. apply elem_of_app. left. exact Hx. }
    split; [intros x Hx; apply Hgrow, Hstep, Hx|]. split.
    + intros x Hx. destruct (Horigin x Hx) as [Hacc|(item & Hitem & ->)].
      * unfold merge_step in Hacc. destruct (existsb _ acc); [left; exact Hacc|].
        apply elem_of_app in Hacc as [Hacc|Hnew]; [left; exact Hacc|].
        apply list_elem_of_singleton in Hnew. right. exists i.
        split; [left|exact Hnew].
      * right. exists item. split; [right; exact Hitem|reflexivity].
    + intros item Hin. apply elem_of_cons in Hin as [->|Hin]; [|apply Hcover, Hin].
      unfold mentions.
      destruct (existsb (fun t => includes (toLowerCase t) (toLowerCase i)) acc)
        eqn:Hex.
      * apply existsb_exists in Hex as (t & Ht & Hinc).
        exists t. split; [|exact Hinc].
        apply Hgrow, Hstep, list_elem_of_In, Ht.
      * exists ("AI: " +:+ i). split.
        -- apply Hgrow. unfold merge_step. rewrite Hex.
           apply elem_of_app. right. left.
        -- rewrite toLowerCase_app. apply includes_app_r.
Qed.

Lemma fold_Set_add_NoDup {A : Type} `{EqDecision A} (items acc : list A) :
  NoDup (acc ++ items) -> fold_left Set_add items acc = acc ++ items.
Proof.
  revert acc. induction items as [|y items IH]; intros acc Hnd; simpl.
  - rewrite app_nil_r. reflexivity.
  - assert (Hy : y ∉ acc).
    { apply NoDup_app in Hnd as (_ & Hdisj & _). intros Hin.
      apply (Hdisj y Hin). left. }
    unfold Set_add at 2. rewrite bool_decide_eq_false_2 by exact Hy.
    rewrite IH; rewrite <- app_assoc; [reflexivity|exact Hnd].
Qed.

(** X18. The merged list of [combineRiskFactors] and
    [combineRecommendations] has no duplicates, holds every traditional entry,
    and holds nothing but traditional entries and AI entries prefixed with
    "AI: ".  Every AI entry is represented: some entry of the result contains
    it, case aside.  With no AI entries a duplicate-free traditional list comes
    back unchanged. *)
Theorem combine_with_ai_merge (traditional aiItems : list string) :
  NoDup (combine_with_ai traditional aiItems)
  /\ (forall x, x ∈ traditional -> x ∈ combine_with_ai traditional aiItems)
  /\ (forall x, x ∈ combine_with_ai traditional aiItems ->
        x ∈ traditional \/ exists item, item ∈ aiItems /\ x = "AI: " +:+ item)
  /\ (forall item, item ∈ aiItems ->
        exists x, x ∈ combine_with_ai traditional aiItems /\ mentions x item)
  /\ (NoDup traditional -> combine_with_ai traditional [] = traditional).
Proof.
  rewrite combine_with_ai_unfold.
  destruct (fold_Set_add (fold_left merge_step aiItems traditional) []
              (NoDup_nil_2)) as [Hnd Hel].
  fold (new_Set (fold_left merge_step aiItems traditional)) in Hnd, Hel.
  destruct (merge_fold aiItems traditional) as (Hgrow & Horigin & Hcover).
  split; [exact Hnd|]. split; [|split; [|split]].
  - intros x Hx. apply Hel. right. apply Hgrow, Hx.
  - intros x Hx. apply Hel in Hx as [Hx|Hx]; [apply elem_of_nil in Hx; contradiction|].
    apply Horigin, Hx.
  - intros item Hin. destruct (Hcover item Hin) as (x & Hx & Hm).
    exists x. split; [apply Hel; right; exact Hx|exact Hm].
  - intros Hndt. rewrite combine_with_ai_unfold. simpl. unfold new_Set.
    apply (fold_Set_add_NoDup traditional []). exact Hndt.
Qed.

(** ** The AI service *)

(** What the service writes over a parsed analysis before returning it. *)
Definition stamped (env : EnvironmentConfig) (elapsed : Z)
    (analysis : AIFraudAnalysis) : AIFraudAnalysis := {|
  ai_isFraudulent := ai_isFraudulent analysis;
  confidence := confidence analysis;
  reasoning := reasoning analysis;
  riskFactors := riskFactors analysis;
  ai_recommendations := ai_recommendations analysis;
  aiModel := AI_MODEL env;
  analysisTime := elapsed
|}.

(** X19. [AIFraudAnalysisService.analyzeTransaction] never throws.  It
    returns the parser's analysis, stamped with the configured model and the
    elapsed time, when analysis is switched on, a credential is set, the
    request succeeds with a non-empty text and the parser accepts it; in every
    other case it returns the fallback analysis, which is not fraudulent and
    has confidence 0. *)
Theorem AI_analyzeTransaction_outcomes (env : EnvironmentConfig)
    (oracle : Oracle) (startTime endTime : Z) (transaction : Transaction) :
  (oracle_call_fails env oracle transaction
   /\ AI_analyzeTransaction env oracle startTime endTime transaction
      = Ok (fallback_analysis env (endTime - startTime)))
  \/ (exists text analysis,
        AI_FRAUD_ANALYSIS_ENABLED env = true
        /\ GROQ_API_KEY env <> ""
        /\ post oracle transaction = Response (Some text)
        /\ text <> ""
        /\ parseAIResponse oracle text transaction = Ok analysis
        /\ AI_analyzeTransaction env oracle startTime endTime transaction
           = Ok (stamped env (endTime - startTime) analysis)).
Proof.
  assert (Hfb : oracle_call_fails env oracle transaction ->
                oracle_call_fails env oracle transaction
                /\ AI_analyzeTransaction env oracle startTime endTime transaction
                   = Ok (fallback_analysis env (endTime - startTime))).
  { intros H. split; [exact H|apply AI_analyzeTransaction_fallback, H]. }
  unfold oracle_call_fails in *.
  destruct (AI_FRAUD_ANALYSIS_ENABLED env) eqn:Hon; [|left; apply Hfb; auto].
  destruct (String.eqb_spec (GROQ_API_KEY env) "") as [Hkey|Hkey];
    [left; apply Hfb; auto|].
  destruct (post oracle transaction) as [msg|[text|]] eqn:Hpost;
    [left; apply Hfb; eauto 6| |left; apply Hfb; auto 6].
  destruct (String.eqb_spec text "") as [Htext|Htext];
    [subst text; left; apply Hfb; auto 6|].
  destruct (parseAIResponse oracle text transaction) as [analysis|msg] eqn:Hparse;
    [|left; apply Hfb; do 5 right; eauto].
  right. exists text, analysis. repeat split; try assumption.
  unfold AI_analyzeTransaction, stamped. rewrite Hon, Hpost. simpl.
  apply String.eqb_neq in Hkey, Htext. rewrite Hkey, Htext. simpl.
  rewrite Hparse. reflexivity.
Qed.

(** ** The free-text fallback parser (AIFraudAnalysisService.parseTextResponse)

    Texts are taken to be ASCII, so that a character is a byte, [\s] is a
    blank or one of the control characters 9 to 13, and [substring(0, 500)]
    keeps 500 characters. *)

Definition is_digit (c : Ascii.ascii) : bool :=
  let n := Ascii.nat_of_ascii c in ((48 <=? n) && (n <=? 57))%nat.

Definition is_space (c : Ascii.ascii) : bool :=
  let n := Ascii.nat_of_ascii c in ((n =? 32) || ((9 <=? n) && (n <=? 13)))%nat.

Definition digit_value (c : Ascii.ascii) : Z :=
  Z.of_nat (Ascii.nat_of_ascii c - 48).

(** [\d*]: the longest run of digits at the start, and what follows it. *)
Fixpoint take_digits (s : string) : list Z * string :=
  match s with
  | String c rest =>
      if is_digit c
      then let '(ds, after) := take_digits rest in (digit_value c :: ds, after)
      else ([], s)
  | EmptyString => ([], EmptyString)
  end.

(** [\s*] *)
Fixpoint skip_spaces (s : string) : string :=
  match s with
  | String c rest => if is_space c then skip_spaces rest else s
  | EmptyString => EmptyString
  end.

Fixpoint drop_string (n : nat) (s : string) : string :=
  match n, s with
  | S n', String _ rest => drop_string n' rest
  | _, _ => s
  end.

Definition digits_to_Z (ds : list Z) : Z :=
  fold_left (fun acc d => 10 * acc + d) ds 0.

(** [Number("12.50")] for a captured decimal numeral. *)
Definition Number_of_decimal (int frac : list Z) : Q :=
  (inject_Z (digits_to_Z int)
   + inject_Z (digits_to_Z frac) / inject_Z (10 ^ Z.of_nat (length frac)))%Q.

Definition colon : Ascii.ascii := Ascii.ascii_of_nat 58.
Definition full_stop : Ascii.ascii := Ascii.ascii_of_nat 46.

(** [(?:confidence|risk):?\s*(\d+(?:\.\d+)?)] anchored at the start of [s]:
    the number captured, if the pattern matches there. *)
Definition match_here (s : string) : option Q :=
  let after_keyword :=
    if String.prefix "confidence" s then Some (drop_string 10 s)
    else if String.prefix "risk" s then Some (drop_string 4 s)
    else None in
  match after_keyword with
  | None => None
  | Some rest =>
      let rest :=
        match rest with
        | String c rest' => if Ascii.eqb c colon then rest' else rest
        | EmptyString => rest
        end in
      let '(int, rest) := take_digits (skip_spaces rest) in
      match int with
      | [] => None
      | _ :: _ =>
          match rest with
          | String c rest' =>
              if Ascii.eqb c full_stop
              then Some (Number_of_decimal int (take_digits rest').1)
              else Some (Number_of_decimal int [])
          | EmptyString => Some (Number_of_decimal int [])
          end
      end
  end.

(** [s.match(regex)]: the leftmost match. *)
Fixpoint regex_search (s : string) : option Q :=
  match match_here s with
  | Some q => Some q
  | None =>
      match s with
      | String _ rest => regex_search rest
      | EmptyString => None
      end
  end.

Definition fraudIndicators : list string :=
  ["fraud"; "suspicious"; "high risk"; "block"; "reject"].

Definition riskPatterns : list string :=
  ["unusual amount"; "high amount"; "suspicious timing"; "new customer";
   "geographic anomaly"; "velocity"; "payment method"; "behavioral"].

Definition recPatterns : list string :=
  ["manual review"; "additional verification"; "monitor"; "block"; "flag";
   "investigate"; "contact customer"; "enhanced security"].

Definition parseTextResponse (env : EnvironmentConfig) (aiResponse : string)
    (transaction : Transaction) : AIFraudAnalysis :=
  let lowerResponse := toLowerCase aiResponse in
  let c : Q :=
    match regex_search lowerResponse with
    | Some q => Qmax 0 (Qmin 1 q)
    | None => 1 # 2
    end in
  let fraud := existsb (fun indicator => includes lowerResponse indicator)
                 fraudIndicators in
  let factors :=
    List.filter (fun pattern => includes lowerResponse pattern) riskPatterns in
  let recs :=
    List.filter (fun pattern => includes lowerResponse pattern) recPatterns in
  {| ai_isFraudulent := fraud;
     confidence := c;
     reasoning := String.substring 0 500 aiResponse;
     riskFactors :=
       if (0 <? length factors)%nat then factors else ["AI analysis completed"];
     ai_recommendations :=
       if (0 <? length recs)%nat then recs else ["Review transaction manually"];
     aiModel := AI_MODEL env;
     analysisTime := 0 |}.

Example parseTextResponse_samples :
  let parse text := parseTextResponse (ENV_with true "key") text scenario_transaction in
  (confidence (parse "Risk: high. Confidence: 0.85, manual review advised") == 85 # 100)%Q
  /\ (confidence (parse "Confidence: 85%") == 1)%Q
  /\ (confidence (parse "confidence 0.25.") == 1 # 4)%Q
  /\ (confidence (parse "I am not sure") == 1 # 2)%Q
  /\ ai_isFraudulent (parse "No fraud detected") = true
  /\ ai_isFraudulent (parse "Looks legitimate") = false
  /\ riskFactors (parse "New customer, HIGH AMOUNT") = ["high amount"; "new customer"]
  /\ ai_recommendations (parse "Looks legitimate") = ["Review transaction manually"].
Proof. vm_compute. repeat split; congruence. Qed.

Lemma substring_prefix (n : nat) (s : string) :
  (String.length (String.substring 0 n s) <= n)%nat
  /\ String.prefix (String.substring 0 n s) s = true.
Proof.
  revert s. induction n as [|n IH]; intros [|c s]; simpl; try (split; [lia|reflexivity]).
  destruct (IH s) as [Hlen Hpre]. split; [lia|].
  destruct (Ascii.ascii_dec c c); [exact Hpre|congruence].
Qed.

Lemma includes_unfold (s sub : string) :
  includes s sub
  = String.prefix sub s
    || match s with
       | EmptyString => false
       | String _ rest => includes rest sub
       end.
Proof. destruct s; reflexivity. Qed.

Lemma regex_search_unfold (s : string) :
  regex_search s
  = match match_here s with
    | Some q => Some q
    | None =>
        match s with
        | String _ rest => regex_search rest
        | EmptyString => None
        end
    end.
Proof. destruct s; reflexivity. Qed.

Lemma includes_prefix (s sub : string) :
  String.prefix sub s = true -> includes s sub = true.
Proof. intros H. rewrite includes_unfold, H. reflexivity. Qed.

Lemma includes_tail (c : Ascii.ascii) (s sub : string) :
  includes s sub = true -> includes (String c s) sub = true.
Proof. intros H. rewrite includes_unfold, H. apply orb_true_r. Qed.

Lemma match_here_keyword (s : string) (q : Q) :
  match_here s = Some q ->
  String.prefix "confidence" s = true \/ String.prefix "risk" s = true.
Proof.
  unfold match_here.
  destruct (String.prefix "confidence" s); [auto|].
  destruct (String.prefix "risk" s); [auto|]. discriminate.
Qed.

Lemma regex_search_keyword (s : string) (q : Q) :
  regex_search s = Some q ->
  includes s "confidence" = true \/ includes s "risk" = true.
Proof.
  induction s as [|c s IH]; rewrite regex_search_unfold.
  - destruct (match_here "") eqn:Hm; [|discriminate].
    intros _. apply match_here_keyword in Hm.
    destruct Hm as [Hm|Hm]; vm_compute in Hm; discriminate.
  - destruct (match_here (String c s)) eqn:Hm.
    + intros _. apply match_here_keyword in Hm as [H|H]; [left|right];
        apply includes_prefix, H.
    + intros Hs. destruct (IH Hs) as [H|H]; [left|right];
        apply includes_tail, H.
Qed.

(** X20. Whatever text it is given, [parseTextResponse] returns a confidence
    in [0,1], at least one risk factor and one recommendation, and a reasoning
    that is the first 500 characters of the text at most.  The verdict is
    "fraudulent" exactly when the lower-cased text contains one of the words
    fraud, suspicious, high risk, block, reject, also inside a denial such as
    "no fraud"; so a text that earns the recommendation "block" is always
    fraudulent.  A text without the words confidence and risk gets the
    confidence 0.5. *)
Theorem parseTextResponse_shape (env : EnvironmentConfig) (text : string)
    (transaction : Transaction) :
  let analysis := parseTextResponse env text transaction in
  ((0 <= confidence analysis)%Q /\ (confidence analysis <= 1)%Q)
  /\ riskFactors analysis <> []
  /\ ai_recommendations analysis <> []
  /\ (String.length (reasoning analysis) <= 500)%nat
  /\ String.prefix (reasoning analysis) text = true
  /\ (ai_isFraudulent analysis = true
      <-> exists indicator,
            indicator ∈ fraudIndicators
            /\ includes (toLowerCase text) indicator = true)
  /\ ("block" ∈ ai_recommendations analysis -> ai_isFraudulent analysis = true)
  /\ (includes (toLowerCase text) "confidence" = false ->
      includes (toLowerCase text) "risk" = false ->
      confidence analysis = 1 # 2).
Proof.
  cbv zeta. unfold parseTextResponse. cbn [confidence riskFactors
    ai_recommendations reasoning ai_isFraudulent].
  split.
  { destruct (regex_search (toLowerCase text)) as [q|]; [|split; discriminate].
    split; [apply Q.le_max_l|].
    apply Q.max_lub; [discriminate|apply Q.le_min_l]. }
  split.
  { destruct (List.filter _ riskPatterns); simpl; discriminate. }
  split.
  { destruct (List.filter _ recPatterns); simpl; discriminate. }
  split; [apply substring_prefix|]. split; [apply substring_prefix|].
  split.
  { rewrite existsb_exists. split.
    - intros (i & Hi & Hinc). exists i. split; [apply list_elem_of_In, Hi|exact Hinc].
    - intros (i & Hi & Hinc). exists i. split; [apply list_elem_of_In, Hi|exact Hinc]. }
  split.
  { intros Hblock. apply existsb_exists. exists "block".
    split; [simpl; tauto|].
    destruct (List.filter _ recPatterns) as [|r recs] eqn:Hrecs; simpl in Hblock.
    - apply list_elem_of_singleton in Hblock. discriminate.
    - rewrite <- Hrecs in Hblock. apply list_elem_of_In, filter_In in Hblock.
      apply Hblock. }
  intros Hc Hr.
  destruct (regex_search (toLowerCase text)) as [q|] eqn:Hs; [|reflexivity].
  apply regex_search_keyword in Hs as [H|H]; congruence.
Qed.

(** ** Batches of the AI service (AIFraudAnalysisService.batchAnalyze) *)

(** [Promise.all]: the values if every promise resolves, a rejection if one
    rejects. *)
Fixpoint Promise_all {A : Type} (promises : list (Result A)) : Result (list A) :=
  match promises with
  | [] => Ok []
  | Throw msg :: _ => Throw msg
  | Ok a :: rest =>
      match Promise_all rest with
      | Ok values => Ok (a :: values)
      | Throw msg => Throw msg
      end
  end.

Definition batch_fallback (env : EnvironmentConfig) : AIFraudAnalysis := {|
  ai_isFraudulent := false;
  confidence := 0;
  reasoning := "Batch analysis failed";
  riskFactors := ["Analysis unavailable"];
  ai_recommendations := ["Manual review required"];
  aiModel := AI_MODEL env;
  analysisTime := 0
|}.

(** The [for] loop of [batchAnalyze] from index [i] on, with [results] so
    far; [fuel] bounds the number of rounds.  The pause between two rounds
    takes time and nothing else. *)
Fixpoint batchAnalyze_from (fuel : nat) (env : EnvironmentConfig)
    (oracle : Oracle) (startTime endTime : Z) (transactions : list Transaction)
    (i : nat) (results : list AIFraudAnalysis) : list AIFraudAnalysis :=
  match fuel with
  | O => results
  | S fuel' =>
      if (i <? length transactions)%nat then
        let batchSize := 5%nat in
        let batch := take batchSize (drop i transactions) in
        let batchPromises :=
          List.map (AI_analyzeTransaction env oracle startTime endTime) batch in
        let results' :=
          match Promise_all batchPromises with
          | Ok batchResults => results ++ batchResults
          | Throw _ => results ++ List.map (fun _ => batch_fallback env) batch
          end in
        batchAnalyze_from fuel' env oracle startTime endTime transactions
          (i + batchSize) results'
      else results
  end.

(** One round per transaction is more than the loop ever needs. *)
Definition batchAnalyze (env : EnvironmentConfig) (oracle : Oracle)
    (startTime endTime : Z) (transactions : list Transaction)
    : list AIFraudAnalysis :=
  batchAnalyze_from (length transactions) env oracle startTime endTime
    transactions 0 [].

(** The analysis that a single call returns. *)
Definition analysis_of (env : EnvironmentConfig) (oracle : Oracle)
    (startTime endTime : Z) (transaction : Transaction) : AIFraudAnalysis :=
  match AI_analyzeTransaction env oracle startTime endTime transaction with
  | Ok analysis => analysis
  | Throw _ => fallback_analysis env (endTime - startTime)
  end.

Lemma AI_analyzeTransaction_Ok (env : EnvironmentConfig) (oracle : Oracle)
    (startTime endTime : Z) (transaction : Transaction) :
  AI_analyzeTransaction env oracle startTime endTime transaction
  = Ok (analysis_of env oracle startTime endTime transaction).
Proof.
  unfold analysis_of.
  pose proof (AI_analyzeTransaction_never_throws env oracle startTime endTime
                transaction) as H.
  destruct (AI_analyzeTransaction env oracle startTime endTime transaction);
    [reflexivity|discriminate].
Qed.

Lemma Promise_all_resolves (env : EnvironmentConfig) (oracle : Oracle)
    (startTime endTime : Z) (batch : list Transaction) :
  Promise_all (List.map (AI_analyzeTransaction env oracle startTime endTime) batch)
  = Ok (List.map (analysis_of env oracle startTime endTime) batch).
Proof.
  induction batch as [|t batch IH]; simpl; [reflexivity|].
  rewrite AI_analyzeTransaction_Ok, IH. reflexivity.
Qed.

Lemma batchAnalyze_from_spec (env : EnvironmentConfig) (oracle : Oracle)
    (startTime endTime : Z) (transactions : list Transaction) (fuel : nat) :
  forall (i : nat) (results : list AIFraudAnalysis),
    (length transactions <= i + 5 * fuel)%nat ->
    batchAnalyze_from fuel env oracle startTime endTime transactions i results
    = results
      ++ List.map (analysis_of env oracle startTime endTime) (drop i transactions).
Proof.
  induction fuel as [|fuel IH]; intros i results Hfuel; simpl.
  - rewrite drop_ge by lia. rewrite app_nil_r. reflexivity.
  - destruct (Nat.ltb_spec i (length transactions)) as [Hlt|Hge].
    + rewrite Promise_all_resolves, IH by lia.
      rewrite <- app_assoc. f_equal.
      rewrite <- List.map_app. f_equal.
      rewrite <- drop_drop. apply take_drop.
    + rewrite drop_ge by lia. rewrite app_nil_r. reflexivity.
Qed.

(** X21. [batchAnalyze] returns one analysis per transaction, in the order
    of the input, each equal to what a single [analyzeTransaction] call
    returns for it: cutting the input into rounds of five changes nothing, and
    the branch that fills a failed round with placeholders is never taken,
    because a single call never rejects. *)
Theorem batchAnalyze_is_map (env : EnvironmentConfig) (oracle : Oracle)
    (startTime endTime : Z) (transactions : list Transaction) :
  batchAnalyze env oracle startTime endTime transactions
  = List.map (analysis_of env oracle startTime endTime) transactions
  /\ length (batchAnalyze env oracle startTime endTime transactions)
     = length transactions
  /\ Forall2
       (fun transaction analysis =>
          AI_analyzeTransaction env oracle startTime endTime transaction
          = Ok analysis)
       transactions
       (batchAnalyze env oracle startTime endTime transactions).
Proof.
  assert (H : batchAnalyze env oracle startTime endTime transactions
              = List.map (analysis_of env oracle startTime endTime) transactions).
  { unfold batchAnalyze. rewrite batchAnalyze_from_spec by lia. reflexivity. }
  rewrite H. split; [reflexivity|]. split; [apply length_map|].
  induction transactions as [|t transactions IH]; simpl; constructor.
  - apply AI_analyzeTransaction_Ok.
  - apply IH. unfold batchAnalyze.
    rewrite batchAnalyze_from_spec by lia. reflexivity.
Qed.

Example batchAnalyze_seven :
  length (batchAnalyze (ENV_with true "") unreachable_oracle 0 5
            (replicate 7 scenario_transaction)) = 7%nat.
Proof. vm_compute. reflexivity. Qed.

(** ** Batches of the detection service (FraudDetectionService.batchAnalyzeWithAI)

    [clock i] is what [Date.now()] reads while the [i]-th transaction of a
    loop is analysed. *)


Lemma calculateRiskScore_store (env : EnvironmentConfig)
    (rules : list FraudRule) (db : list Transaction) (now : Z)
    (transaction : Transaction) (store : gmap string SandboxVelocity) :
  (calculateRiskScore env rules db now transaction store).2
  = (checkVelocityFraud env (customerEmail transaction) (merchantId transaction)
       (VELOCITY_WINDOW_MS env) now store).2.
Proof.
  unfold calculateRiskScore.
  destruct (apply_rules rules transaction) as [t0 f0].
  destruct (checkVelocityFraud _ _ _ _ _ _) as [[|] st]; simpl;
    destruct (checkAmountAnomaly _ _ _ _ _ _); simpl;
    destruct (checkGeographicAnomaly _ _ _ _ _ _); simpl;
    repeat case_leb; reflexivity.
Qed.

Lemma analyzeTransaction_store (env : EnvironmentConfig)
    (rules : list FraudRule) (db : list Transaction) (now : Z)
    (transaction : Transaction) (store : gmap string SandboxVelocity) :
  (analyzeTransaction env rules db now transaction store).2
  = (checkVelocityFraud env (customerEmail transaction) (merchantId transaction)
       (VELOCITY_WINDOW_MS env) now store).2.
Proof.
  destruct (analyzeTransaction_riskScore env rules db now transaction store)
    as [_ H]. rewrite H. apply calculateRiskScore_store.
Qed.




(** ** Merchant statistics (FraudDetectionService.getFraudStatistics)

    The object [riskFactors] is an association list in order of first
    insertion.  Factor names are taken not to be names of members of
    [Object.prototype], for which the lookup would find an inherited value. *)

Record FraudStatistics := {
  totalTransactions : Z;
  flaggedTransactions : Z;
  blockedTransactions : Z;
  fraudRate : Q;
  averageRiskScore : Q;
  topRiskFactors : list (string * Z)
}.

Record StatisticsCounters := {
  flaggedCount : Z;
  blockedCount : Z;
  totalRiskScore : Z;
  riskFactorCounts : list (string * Z)
}.

(** [riskFactors[factor] = (riskFactors[factor] || 0) + 1] *)
Fixpoint bump_count (factor : string) (o : list (string * Z)) : list (string * Z) :=
  match o with
  | [] => [(factor, 0 + 1)]
  | (k, v) :: rest =>
      if String.eqb k factor
      then (k, (if v =? 0 then 0 else v) + 1) :: rest
      else (k, v) :: bump_count factor rest
  end.

Definition is_block (a : Action) : bool :=
  match a with block => true | _ => false end.

(** The [for] loop over the transactions found. *)
Fixpoint statistics_loop (env : EnvironmentConfig) (rules : list FraudRule)
    (db : list Transaction) (clock : nat -> Z) (i : nat)
    (transactions : list Transaction) (acc : StatisticsCounters)
    (store : gmap string SandboxVelocity)
    : StatisticsCounters * gmap string SandboxVelocity :=
  match transactions with
  | [] => (acc, store)
  | transaction :: rest =>
      let '(analysis, store1) :=
        analyzeTransaction env rules db (clock i) transaction store in
      let acc' := {|
        flaggedCount :=
          if flagged analysis then flaggedCount acc + 1 else flaggedCount acc;
        blockedCount :=
          if is_block (action analysis) then blockedCount acc + 1
          else blockedCount acc;
        totalRiskScore := totalRiskScore acc + score (riskScore analysis);
        riskFactorCounts :=
          fold_left (fun o factor => bump_count factor o)
            (factors (riskScore analysis)) (riskFactorCounts acc) |} in
      statistics_loop env rules db clock (S i) rest acc' store1
  end.

(** A stable insertion sort: [x] goes in front of the first [y] with
    [before x y]. *)
Fixpoint insert_by {A : Type} (before : A -> A -> bool) (x : A) (l : list A)
    : list A :=
  match l with
  | [] => [x]
  | y :: rest => if before x y then x :: y :: rest else y :: insert_by before x rest
  end.

Definition sort_by {A : Type} (before : A -> A -> bool) (l : list A) : list A :=
  foldr (insert_by before) [] l.

(** The value of a key that is an array index: a canonical decimal numeral
    below 2^32 - 1. *)
Definition array_index (k : string) : option Z :=
  match k with
  | EmptyString => None
  | String c rest =>
      let '(ds, tail) := take_digits k in
      if negb (String.eqb tail "") then None
      else if (digit_value c =? 0) && negb (String.eqb rest "") then None
      else if digits_to_Z ds <=? 4294967294 then Some (digits_to_Z ds)
      else None
  end.

(** [Object.entries]: array-index keys in ascending order, then the other
    keys in order of insertion. *)
Definition Object_entries (o : list (string * Z)) : list (string * Z) :=
  sort_by (fun a b => default 0 (array_index a.1) <=? default 0 (array_index b.1))
    (List.filter (fun e => bool_decide (is_Some (array_index e.1))) o)
  ++ List.filter (fun e => negb (bool_decide (is_Some (array_index e.1)))) o.

Definition getFraudStatistics (env : EnvironmentConfig) (rules : list FraudRule)
    (db : list Transaction) (clock : nat -> Z) (merchant : string)
    (startDate endDate : option Z) (store : gmap string SandboxVelocity)
    : FraudStatistics * gmap string SandboxVelocity :=
  let transactions :=
    List.filter
      (fun t => String.eqb (merchantId t) merchant
                && match startDate, endDate with
                   | Some s, Some e => (s <=? createdAt t) && (createdAt t <=? e)
                   | _, _ => true
                   end) db in
  let '(acc, store') :=
    statistics_loop env rules db clock 0 transactions
      {| flaggedCount := 0; blockedCount := 0; totalRiskScore := 0;
         riskFactorCounts := [] |} store in
  let total := Z.of_nat (length transactions) in
  ({| totalTransactions := total;
      flaggedTransactions := flaggedCount acc;
      blockedTransactions := blockedCount acc;
      fraudRate :=
        if 0 <? total
        then (inject_Z (flaggedCount acc) / inject_Z total * 100)%Q else 0%Q;
      averageRiskScore :=
        if 0 <? total
        then (inject_Z (totalRiskScore acc) / inject_Z total)%Q else 0%Q;
      topRiskFactors :=
        take 10 (sort_by (fun a b => b.2 <=? a.2)
                   (Object_entries (riskFactorCounts acc))) |},
   store').

Definition stats_history : list Transaction := [
  history_transaction "test1@example.com" 50000 None;
  history_transaction "test2@example.com" 1500000 None;
  history_transaction "test3@example.com" 2000000 None
].

Example getFraudStatistics_sample :
  let s := (getFraudStatistics (ENV_with false "") FRAUD_RULES stats_history
              (fun _ => 43200000) "merchant_001" None None ∅).1 in
  totalTransactions s = 3 /\ flaggedTransactions s = 0
  /\ blockedTransactions s = 0 /\ (fraudRate s == 0)%Q
  /\ (averageRiskScore s == 85 # 3)%Q
  /\ topRiskFactors s
     = [("Unusual Transaction Time", 3); ("High Transaction Amount", 2)].
Proof. vm_compute. repeat split; congruence. Qed.

Lemma analyzeTransaction_step_facts (env : EnvironmentConfig)
    (rules : list FraudRule) (db : list Transaction) (now : Z)
    (transaction : Transaction) (store : gmap string SandboxVelocity) :
  let analysis := (analyzeTransaction env rules db now transaction store).1 in
  score (riskScore analysis) <= 100
  /\ (FRAUD_REVIEW_THRESHOLD env <= FRAUD_BLOCK_THRESHOLD env ->
      is_block (action analysis) = true -> flagged analysis = true)
  /\ (Forall (fun rule => 0 <= weight rule) rules ->
      0 <= score (riskScore analysis)).
Proof.
  cbv zeta.
  pose proof (calculateRiskScore_at_most_100 env rules db now transaction store)
    as H100.
  pose proof (calculateRiskScore_total env rules db now transaction store) as Ht.
  pose proof (detector_contributions_range env db now transaction store) as Hd.
  pose proof (fired_weights_nonneg rules transaction) as Hw.
  cbv zeta in Ht. destruct Ht as [Hs _]. unfold total_contributions in Hs.
  destruct (analyzeTransaction_riskScore env rules db now transaction store)
    as [Hrs _].
  rewrite Hrs. split; [exact H100|]. split.
  - intros Hthr. unfold analyzeTransaction.
    destruct (calculateRiskScore env rules db now transaction store) as [rs st].
    repeat case_leb; simpl; intros; (reflexivity || discriminate || lia).
  - intros Hnn. specialize (Hw Hnn). lia.
Qed.

Lemma statistics_loop_counts (env : EnvironmentConfig) (rules : list FraudRule)
    (db : list Transaction) (clock : nat -> Z) (transactions : list Transaction) :
  forall (i : nat) (acc : StatisticsCounters) (store : gmap string SandboxVelocity),
    let res := (statistics_loop env rules db clock i transactions acc store).1 in
    let n := Z.of_nat (length transactions) in
    flaggedCount acc <= flaggedCount res <= flaggedCount acc + n
    /\ blockedCount acc <= blockedCount res <= blockedCount acc + n
    /\ totalRiskScore res <= totalRiskScore acc + 100 * n
    /\ (FRAUD_REVIEW_THRESHOLD env <= FRAUD_BLOCK_THRESHOLD env ->
        blockedCount res - blockedCount acc <= flaggedCount res - flaggedCount acc)
    /\ (Forall (fun rule => 0 <= weight rule) rules ->
        totalRiskScore acc <= totalRiskScore res).
Proof.
  induction transactions as [|t transactions IH]; intros i acc store; cbv zeta.
  - simpl. repeat split; intros; lia.
  - cbn [statistics_loop length].
    pose proof (analyzeTransaction_step_facts env rules db (clock i) t store)
      as Hstep. cbv zeta in Hstep.
    destruct (analyzeTransaction env rules db (clock i) t store) as [an st1].
    cbn [fst] in Hstep. destruct Hstep as (H100 & Hbf & Hnn).
    match goal with
    | |- context [statistics_loop env rules db clock (S i) transactions ?a st1] =>
        specialize (IH (S i) a st1); cbv zeta in IH;
        destruct (statistics_loop env rules db clock (S i) transactions a st1)
          as [res st2]
    end.
    cbn [fst flaggedCount blockedCount totalRiskScore] in *.
    destruct IH as (Hf & Hb & Ht & Hbfl & Hpos).
    rewrite Nat2Z.inj_succ.
    destruct (flagged an) eqn:Hfl; destruct (is_block (action an)) eqn:Hbl;
      repeat split; intros;
      try (specialize (Hbfl ltac:(assumption)));
      try (specialize (Hpos ltac:(assumption)));
      try (specialize (Hnn ltac:(assumption)));
      try (specialize (Hbf ltac:(assumption) eq_refl); discriminate);
      lia.
Qed.

Lemma Q_ratio_bounds (f n : Z) :
  0 <= f <= n -> 0 < n ->
  (0 <= inject_Z f / inject_Z n * 100)%Q
  /\ (inject_Z f / inject_Z n * 100 <= 100)%Q.
Proof.
  intros Hf Hn.
  assert (Hnq : (0 < inject_Z n)%Q) by (rewrite (Zlt_Qlt 0 n) in Hn; exact Hn).
  assert (Hlo : (0 <= inject_Z f / inject_Z n)%Q).
  { apply Qle_shift_div_l; [exact Hnq|]. rewrite Qmult_0_l.
    rewrite (Zle_Qle 0 f) in Hf. apply Hf. }
  assert (Hhi : (inject_Z f / inject_Z n <= 1)%Q).
  { apply Qle_shift_div_r; [exact Hnq|]. rewrite Qmult_1_l.
    rewrite <- Zle_Qle. lia. }
  split; lra.
Qed.

Lemma Q_average_bound (t n : Z) :
  t <= 100 * n -> 0 < n -> (inject_Z t / inject_Z n <= 100)%Q.
Proof.
  intros Ht Hn.
  assert (Hnq : (0 < inject_Z n)%Q) by (rewrite (Zlt_Qlt 0 n) in Hn; exact Hn).
  apply Qle_shift_div_r; [exact Hnq|].
  change 100%Q with (inject_Z 100). rewrite <- inject_Z_mult, <- Zle_Qle. exact Ht.
Qed.

Lemma Q_average_nonneg (t n : Z) :
  0 <= t -> 0 < n -> (0 <= inject_Z t / inject_Z n)%Q.
Proof.
  intros Ht Hn.
  assert (Hnq : (0 < inject_Z n)%Q) by (rewrite (Zlt_Qlt 0 n) in Hn; exact Hn).
  apply Qle_shift_div_l; [exact Hnq|]. rewrite Qmult_0_l.
  rewrite (Zle_Qle 0 t) in Ht. exact Ht.
Qed.

(** X23. In the statistics of a merchant the flagged and the blocked counts
    lie between 0 and the number of transactions found, the fraud rate lies
    in [0,100] and the average risk score is at most 100.  When no
    transaction is found, both rates are 0, the list of top factors is empty
    and the velocity store is left as it was.  With the review threshold not
    above the block threshold, no more transactions are blocked than flagged;
    with rule weights that are not negative, the average is not negative. *)
Theorem getFraudStatistics_bounds (env : EnvironmentConfig)
    (rules : list FraudRule) (db : list Transaction) (clock : nat -> Z)
    (merchant : string) (startDate endDate : option Z)
    (store : gmap string SandboxVelocity) :
  let run :=
    getFraudStatistics env rules db clock merchant startDate endDate store in
  0 <= flaggedTransactions run.1 <= totalTransactions run.1
  /\ 0 <= blockedTransactions run.1 <= totalTransactions run.1
  /\ ((0 <= fraudRate run.1)%Q /\ (fraudRate run.1 <= 100)%Q)
  /\ (averageRiskScore run.1 <= 100)%Q
  /\ (totalTransactions run.1 = 0 ->
      fraudRate run.1 = 0%Q /\ averageRiskScore run.1 = 0%Q
      /\ topRiskFactors run.1 = [] /\ run.2 = store)
  /\ (FRAUD_REVIEW_THRESHOLD env <= FRAUD_BLOCK_THRESHOLD env ->
      blockedTransactions run.1 <= flaggedTransactions run.1)
  /\ (Forall (fun rule => 0 <= weight rule) rules ->
      (0 <= averageRiskScore run.1)%Q).
Proof.
  cbv zeta. unfold getFraudStatistics.
  set (transactions := List.filter _ db).
  pose proof (statistics_loop_counts env rules db clock transactions 0%nat
                {| flaggedCount := 0; blockedCount := 0; totalRiskScore := 0;
                   riskFactorCounts := [] |} store) as Hloop.
  cbv zeta in Hloop.
  assert (Hempty : transactions = [] ->
            statistics_loop env rules db clock 0 transactions
              {| flaggedCount := 0; blockedCount := 0; totalRiskScore := 0;
                 riskFactorCounts := [] |} store
            = ({| flaggedCount := 0; blockedCount := 0; totalRiskScore := 0;
                  riskFactorCounts := [] |}, store)).
  { intros ->. reflexivity. }
  destruct (statistics_loop env rules db clock 0 transactions _ store)
    as [acc st'].
  cbn [fst snd flaggedCount blockedCount totalRiskScore totalTransactions
       flaggedTransactions blockedTransactions fraudRate averageRiskScore
       topRiskFactors] in *.
  destruct Hloop as (Hf & Hb & Ht & Hbf & Hpos).
  split; [lia|]. split; [lia|].
  destruct (Z.ltb_spec 0 (Z.of_nat (length transactions))) as [Hn|Hn].
  - split; [apply Q_ratio_bounds; lia|].
    split; [apply Q_average_bound; lia|].
    split; [lia|]. split; [intros H; specialize (Hbf H); lia|].
    intros H. specialize (Hpos H). apply Q_average_nonneg; lia.
  - split; [split; discriminate|]. split; [discriminate|].
    split.
    + intros _. assert (Hnil : transactions = []).
      { destruct transactions; [reflexivity|]. simpl in Hn. lia. }
      specialize (Hempty Hnil). injection Hempty as -> ->.
      repeat split.
    + split; [intros H; specialize (Hbf H); lia|]. intros _. discriminate.
Qed.

(** ** The top risk factors *)

From stdpp Require Import sorting.

Open Scope Z_scope.





















(** The transactions that [getFraudStatistics] finds. *)
Definition statistics_transactions (merchant : string)
    (startDate endDate : option Z) (db : list Transaction) : list Transaction :=
  List.filter
    (fun t => String.eqb (merchantId t) merchant
              && match startDate, endDate with
                 | Some s, Some e => (s <=? createdAt t) && (createdAt t <=? e)
                 | _, _ => true
                 end) db.


(** ** Statistics and the velocity store *)

Lemma checkVelocityFraud_other_key (env : EnvironmentConfig)
    (customer merchant : string) (timeWindow now : Z)
    (store : gmap string SandboxVelocity) (k' : string) :
  k' <> velocity_key merchant customer ->
  (checkVelocityFraud env customer merchant timeWindow now store).2 !! k'
  = store !! k'.
Proof.
  intros Hk. unfold checkVelocityFraud.
  destruct (store !! velocity_key merchant customer) as [c0|];
    [destruct (expiresAt c0 <=? now)|]; simpl;
    apply lookup_insert_ne; congruence.
Qed.

Lemma statistics_loop_step (env : EnvironmentConfig) (rules : list FraudRule)
    (db : list Transaction) (clock : nat -> Z) (i : nat) (t : Transaction)
    (rest : list Transaction) (acc : StatisticsCounters)
    (store : gmap string SandboxVelocity) :
  exists acc',
    statistics_loop env rules db clock i (t :: rest) acc store
    = statistics_loop env rules db clock (S i) rest acc'
        (checkVelocityFraud env (customerEmail t) (merchantId t)
           (VELOCITY_WINDOW_MS env) (clock i) store).2.
Proof.
  cbn [statistics_loop].
  rewrite <- analyzeTransaction_store with (rules := rules) (db := db).
  destruct (analyzeTransaction env rules db (clock i) t store) as [an st1].
  eexists. reflexivity.
Qed.

(** How many of the transactions are the customer's. *)
Definition attempts_of (customer : string) (transactions : list Transaction) : Z :=
  Z.of_nat (length (List.filter
                      (fun t => String.eqb (customerEmail t) customer)
                      transactions)).

Lemma attempts_of_cons (customer : string) (t : Transaction)
    (transactions : list Transaction) :
  attempts_of customer (t :: transactions)
  = (if String.eqb (customerEmail t) customer then 1 else 0)
    + attempts_of customer transactions.
Proof.
  unfold attempts_of. simpl.
  destruct (String.eqb (customerEmail t) customer); simpl length; lia.
Qed.

Lemma attempts_of_nonneg (customer : string) (transactions : list Transaction) :
  0 <= attempts_of customer transactions.
Proof. unfold attempts_of. lia. Qed.

(** Replaying transactions of one merchant while the customer's counter is
    live raises its count by the number of the customer's transactions. *)
Lemma statistics_loop_live (env : EnvironmentConfig) (rules : list FraudRule)
    (db : list Transaction) (clock : nat -> Z) (customer merchant : string)
    (transactions : list Transaction) :
  Forall (fun t => merchantId t = merchant) transactions ->
  forall (i : nat) (acc : StatisticsCounters)
         (store : gmap string SandboxVelocity) (c : SandboxVelocity),
    store !! velocity_key merchant customer = Some c ->
    (forall j, clock j < expiresAt c) ->
    exists c',
      (statistics_loop env rules db clock i transactions acc store).2
        !! velocity_key merchant customer = Some c'
      /\ count c' = count c + attempts_of customer transactions
      /\ expiresAt c' = expiresAt c.
Proof.
  induction 1 as [|t transactions Hm _ IH]; intros i acc store c Hc Hlive.
  - exists c. unfold attempts_of. simpl. split; [exact Hc|]. split; [lia|reflexivity].
  - destruct (statistics_loop_step env rules db clock i t transactions acc store)
      as [acc' ->].
    rewrite attempts_of_cons, Hm.
    destruct (String.eqb_spec (customerEmail t) customer) as [->|Hne].
    + rewrite (checkVelocityFraud_bump _ _ _ _ _ _ c Hc (Hlive i)). simpl.
      destruct (IH (S i) acc'
                  (<[velocity_key merchant customer := bump c]> store) (bump c)
                  (lookup_insert_eq _ _ _) Hlive)
        as (c' & Hc' & Hcount & Hexp).
      exists c'. split; [exact Hc'|]. simpl in *. split; [lia|exact Hexp].
    + assert (Hother : (checkVelocityFraud env (customerEmail t) merchant
                          (VELOCITY_WINDOW_MS env) (clock i) store).2
                         !! velocity_key merchant customer = Some c).
      { rewrite checkVelocityFraud_other_key; [exact Hc|].
        intros Heq. apply velocity_key_customer_inj in Heq. congruence. }
      destruct (IH (S i) acc' _ c Hother Hlive) as (c' & Hc' & Hcount & Hexp).
      exists c'. split; [exact Hc'|]. split; [lia|exact Hexp].
Qed.

(** The same from a counter that is absent or expired when the replay starts. *)
Lemma statistics_loop_fresh (env : EnvironmentConfig) (rules : list FraudRule)
    (db : list Transaction) (clock : nat -> Z) (customer merchant : string)
    (start : Z) (transactions : list Transaction) :
  Forall (fun t => merchantId t = merchant) transactions ->
  (forall j, start <= clock j < start + VELOCITY_WINDOW_MS env) ->
  forall (i : nat) (acc : StatisticsCounters)
         (store : gmap string SandboxVelocity),
    absent_or_expired store (velocity_key merchant customer) start ->
    1 <= attempts_of customer transactions ->
    exists c',
      (statistics_loop env rules db clock i transactions acc store).2
        !! velocity_key merchant customer = Some c'
      /\ count c' = attempts_of customer transactions
      /\ start + VELOCITY_WINDOW_MS env <= expiresAt c'.
Proof.
  intros Hall Hclock.
  induction Hall as [|t transactions Hm Hall IH]; intros i acc store Hstart Hn.
  - unfold attempts_of in Hn. simpl in Hn. lia.
  - destruct (statistics_loop_step env rules db clock i t transactions acc store)
      as [acc' ->].
    rewrite attempts_of_cons in Hn |- *. rewrite Hm.
    destruct (String.eqb_spec (customerEmail t) customer) as [->|Hne].
    + rewrite checkVelocityFraud_reset.
      2:{ unfold absent_or_expired in *.
          destruct (store !! velocity_key merchant customer); [|exact I].
          specialize (Hclock i). lia. }
      destruct (statistics_loop_live env rules db clock customer merchant
                  transactions Hall (S i) acc'
                  (<[velocity_key merchant customer :=
                       fresh_counter (velocity_key merchant customer) (clock i)
                         (VELOCITY_WINDOW_MS env)]> store)
                  (fresh_counter (velocity_key merchant customer) (clock i)
                     (VELOCITY_WINDOW_MS env))
                  (lookup_insert_eq _ _ _)) as (c' & Hc' & Hcount & Hexp).
      { intros j. simpl. pose proof (Hclock i). pose proof (Hclock j). lia. }
      exists c'. split; [exact Hc'|]. simpl in *.
      split; [lia|]. rewrite Hexp. specialize (Hclock i). lia.
    + assert (Hother : absent_or_expired
                (checkVelocityFraud env (customerEmail t) merchant
                   (VELOCITY_WINDOW_MS env) (clock i) store).2
                (velocity_key merchant customer) start).
      { unfold absent_or_expired in *.
        rewrite checkVelocityFraud_other_key; [exact Hstart|].
        intros Heq. apply velocity_key_customer_inj in Heq. congruence. }
      destruct (IH (S i) acc' _ Hother ltac:(lia)) as (c' & Hc' & Hcount & Hexp).
      exists c'. split; [exact Hc'|]. split; [lia|exact Hexp].
Qed.

Lemma statistics_transactions_merchant (merchant : string)
    (startDate endDate : option Z) (db : list Transaction) :
  Forall (fun t => merchantId t = merchant)
    (statistics_transactions merchant startDate endDate db).
Proof.
  apply Forall_forall. intros t Ht.
  apply list_elem_of_In, filter_In in Ht as [_ Ht].
  apply andb_true_iff in Ht as [Ht _]. apply String.eqb_eq, Ht.
Qed.

(** X25. Computing statistics is not read-only: each transaction replayed
    counts as a velocity attempt of its customer.  After statistics over a
    history that holds [n >= 1] transactions of a customer at the merchant,
    started on an absent or expired counter, the counter stands at [n]; the
    customer's next live transaction inside the window is then reported as
    velocity fraud exactly when [n + 1] exceeds [VELOCITY_MAX_ATTEMPTS]. *)
Theorem getFraudStatistics_spends_attempts (env : EnvironmentConfig)
    (rules : list FraudRule) (db : list Transaction) (clock : nat -> Z)
    (merchant customer : string) (startDate endDate : option Z) (start : Z)
    (store : gmap string SandboxVelocity) :
  let n :=
    attempts_of customer (statistics_transactions merchant startDate endDate db) in
  let store' :=
    (getFraudStatistics env rules db clock merchant startDate endDate store).2 in
  absent_or_expired store (velocity_key merchant customer) start ->
  (forall j, start <= clock j < start + VELOCITY_WINDOW_MS env) ->
  1 <= n ->
  (exists c, store' !! velocity_key merchant customer = Some c /\ count c = n)
  /\ forall t,
       t < start + VELOCITY_WINDOW_MS env ->
       (checkVelocityFraud env customer merchant (VELOCITY_WINDOW_MS env) t
          store').1
       = bool_decide (VELOCITY_MAX_ATTEMPTS env < n + 1).
Proof.
  cbv zeta. intros Hstart Hclock Hn.
  unfold getFraudStatistics.
  fold (statistics_transactions merchant startDate endDate db).
  destruct (statistics_loop_fresh env rules db clock customer merchant start
              (statistics_transactions merchant startDate endDate db)
              (statistics_transactions_merchant merchant startDate endDate db)
              Hclock 0%nat
              {| flaggedCount := 0; blockedCount := 0; totalRiskScore := 0;
                 riskFactorCounts := [] |} store Hstart Hn)
    as (c & Hc & Hcount & Hexp).
  destruct (statistics_loop env rules db clock 0
              (statistics_transactions merchant startDate endDate db) _ store)
    as [acc st']. simpl in *.
  split; [exists c; split; assumption|].
  intros t Ht.
  rewrite (checkVelocityFraud_bump _ _ _ _ _ _ c Hc) by lia.
  simpl. rewrite Hcount. reflexivity.
Qed.

Definition repeat_history : list Transaction := [
  history_transaction "ann@example.com" 1000 None;
  history_transaction "ann@example.com" 2000 None;
  history_transaction "bob@example.com" 3000 None;
  history_transaction "ann@example.com" 4000 None;
  history_transaction "ann@example.com" 5000 None;
  history_transaction "ann@example.com" 6000 None
].

Lemma getFraudStatistics_spends_attempts_witness :
  (exists c,
     (getFraudStatistics (ENV_with false "") FRAUD_RULES repeat_history
        (fun _ => 5000) "merchant_001" None None ∅).2
       !! velocity_key "merchant_001" "ann@example.com" = Some c
     /\ count c
        = attempts_of "ann@example.com"
            (statistics_transactions "merchant_001" None None repeat_history))
  /\ forall t,
       t < 5000 + VELOCITY_WINDOW_MS (ENV_with false "") ->
       (checkVelocityFraud (ENV_with false "") "ann@example.com" "merchant_001"
          (VELOCITY_WINDOW_MS (ENV_with false "")) t
          (getFraudStatistics (ENV_with false "") FRAUD_RULES repeat_history
             (fun _ => 5000) "merchant_001" None None ∅).2).1
       = bool_decide
           (VELOCITY_MAX_ATTEMPTS (ENV_with false "")
            < attempts_of "ann@example.com"
                (statistics_transactions "merchant_001" None None repeat_history)
              + 1).
Proof.
  apply (getFraudStatistics_spends_attempts (ENV_with false "") FRAUD_RULES
           repeat_history (fun _ => 5000) "merchant_001" "ann@example.com"
           None None 5000 ∅).
  - unfold absent_or_expired. rewrite lookup_empty. exact I.
  - intros j. simpl. lia.
  - vm_compute. discriminate.
Defined.

Example statistics_then_live_transaction :
  (checkVelocityFraud (ENV_with false "") "ann@example.com" "merchant_001"
     3600000 6000
     (getFraudStatistics (ENV_with false "") FRAUD_RULES repeat_history
        (fun _ => 5000) "merchant_001" None None ∅).2).1 = true.
Proof. vm_compute. reflexivity. Qed.

(** ** More on the amount and geographic detectors *)

(** A stored transaction that [checkAmountAnomaly] looks at. *)
Definition counts_for_merchant (merchant : string) (cutoffTime : Z)
    (t : Transaction) : bool :=
  String.eqb (merchantId t) merchant
  && is_success (status t)
  && (cutoffTime <=? createdAt t).

(** X26. [checkAmountAnomaly] is monotone in the amount: once an amount is
    anomalous for a history, every larger amount is.  It reads nothing but the
    merchant's successful transactions of the window: storing or deleting a
    transaction of another merchant, an unsuccessful one or one older than the
    window does not change any result. *)
Theorem checkAmountAnomaly_monotone_and_local (env : EnvironmentConfig)
    (merchant : string) (timeWindow now : Z) :
  (forall (db : list Transaction) (amt amt' : Q),
     (amt <= amt')%Q ->
     checkAmountAnomaly env merchant amt timeWindow now db = true ->
     checkAmountAnomaly env merchant amt' timeWindow now db = true)
  /\ (forall (db1 db2 : list Transaction) (t : Transaction) (amt : Q),
        counts_for_merchant merchant (now - timeWindow) t = false ->
        checkAmountAnomaly env merchant amt timeWindow now (db1 ++ t :: db2)
        = checkAmountAnomaly env merchant amt timeWindow now (db1 ++ db2)).
Proof.
  split.
  - intros db amt amt' Hle. unfold checkAmountAnomaly.
    destruct (aggregate_amount_stats merchant (now - timeWindow) db)
      as [|[avgAmount maxAmount] rest]; [discriminate|].
    rewrite !orb_true_iff, !Qgtb_lt.
    intros [H|H]; [left|right]; eapply Qlt_le_trans; eassumption.
  - intros db1 db2 t amt Hno.
    unfold checkAmountAnomaly, aggregate_amount_stats.
    rewrite !List.filter_app. cbn [List.filter].
    unfold counts_for_merchant in Hno. rewrite Hno. reflexivity.
Qed.


(** ** The enhanced analysis without AI *)

Lemma analyzeTransaction_action_ladder (env : EnvironmentConfig)
    (rules : list FraudRule) (db : list Transaction) (now : Z)
    (transaction : Transaction) (store : gmap string SandboxVelocity) :
  let r := (analyzeTransaction env rules db now transaction store).1 in
  action r = threshold_ladder env (score (riskScore r)).
Proof.
  cbv zeta.
  destruct (analyzeTransaction_riskScore env rules db now transaction store)
    as [Hrs _]. rewrite Hrs.
  unfold analyzeTransaction, threshold_ladder.
  destruct (calculateRiskScore env rules db now transaction store) as [rs st].
  cbn [fst]. repeat case_leb; repeat case_decide; simpl; try reflexivity; lia.
Qed.

(** X28. With AI analysis switched off, the enhanced analysis agrees with
    the traditional one: same action, same score as combined score, same
    level and flags, no AI analysis attached; factors and recommendations are
    the traditional ones with repetitions dropped.  Only the reason is always
    filled in, also for an allowed transaction. *)
Theorem analyzeTransactionWithAI_without_AI (env : EnvironmentConfig)
    (oracle : Oracle) (rules : list FraudRule) (db : list Transaction)
    (now startTime endTime : Z) (transaction : Transaction)
    (store : gmap string SandboxVelocity) :
  AI_FRAUD_ANALYSIS_ENABLED env = false ->
  let traditional := (analyzeTransaction env rules db now transaction store).1 in
  exists r,
    (analyzeTransactionWithAI env oracle rules db now startTime endTime
       transaction store).1 = Ok r
    /\ aiEnhanced r = false /\ aiAnalysis r = None
    /\ action (base r) = action traditional
    /\ combinedRiskScore r = score (riskScore traditional)
    /\ score (riskScore (base r)) = score (riskScore traditional)
    /\ level (riskScore (base r)) = level (riskScore traditional)
    /\ isFraudulent (base r) = isFraudulent traditional
    /\ flagged (base r) = flagged traditional
    /\ factors (riskScore (base r)) = new_Set (factors (riskScore traditional))
    /\ recommendations (riskScore (base r))
       = new_Set (recommendations (riskScore traditional))
    /\ is_Some (reason (base r)).
Proof.
  intros Hoff. cbv zeta.
  pose proof (analyzeTransaction_action_ladder env rules db now transaction store)
    as Hact. cbv zeta in Hact.
  unfold analyzeTransactionWithAI. rewrite Hoff.
  destruct (analyzeTransaction env rules db now transaction store) as [t st].
  cbn [fst] in *. eexists. split; [reflexivity|].
  cbn [aiEnhanced aiAnalysis base action combinedRiskScore riskScore score level
       isFraudulent flagged factors recommendations reason combineRiskScores
       from_option].
  split; [reflexivity|]. split; [reflexivity|].
  split.
  { rewrite Hact. unfold determineFinalAction.
    apply ladder_code_is_threshold_ladder. }
  do 7 (split; [reflexivity|]).
  unfold determineFinalAction. repeat case_leb; cbn; eexists; reflexivity.
Qed.

Lemma analyzeTransactionWithAI_without_AI_witness :
  exists r,
    (analyzeTransactionWithAI (ENV_with false "") unreachable_oracle FRAUD_RULES
       [] 43200000 43200000 43200005 scenario_transaction ∅).1 = Ok r
    /\ aiEnhanced r = false /\ aiAnalysis r = None
    /\ action (base r)
       = action (analyzeTransaction (ENV_with false "") FRAUD_RULES [] 43200000
                   scenario_transaction ∅).1
    /\ combinedRiskScore r
       = score (riskScore (analyzeTransaction (ENV_with false "") FRAUD_RULES []
                             43200000 scenario_transaction ∅).1)
    /\ score (riskScore (base r))
       = score (riskScore (analyzeTransaction (ENV_with false "") FRAUD_RULES []
                             43200000 scenario_transaction ∅).1)
    /\ level (riskScore (base r))
       = level (riskScore (analyzeTransaction (ENV_with false "") FRAUD_RULES []
                             43200000 scenario_transaction ∅).1)
    /\ isFraudulent (base r)
       = isFraudulent (analyzeTransaction (ENV_with false "") FRAUD_RULES []
                         43200000 scenario_transaction ∅).1
    /\ flagged (base r)
       = flagged (analyzeTransaction (ENV_with false "") FRAUD_RULES []
                    43200000 scenario_transaction ∅).1
    /\ factors (riskScore (base r))
       = new_Set (factors (riskScore (analyzeTransaction (ENV_with false "")
                                        FRAUD_RULES [] 43200000
                                        scenario_transaction ∅).1))
    /\ recommendations (riskScore (base r))
       = new_Set (recommendations
                    (riskScore (analyzeTransaction (ENV_with false "")
                                  FRAUD_RULES [] 43200000
                                  scenario_transaction ∅).1))
    /\ is_Some (reason (base r)).
Proof.
  apply (analyzeTransactionWithAI_without_AI (ENV_with false "")
           unreachable_oracle FRAUD_RULES [] 43200000 43200000 43200005
           scenario_transaction ∅).
  reflexivity.
Defined.
